(** * Maya intake parser: flattening, naming and duplicate detection

    A shallow embedding of [jsonParser.js] and of the orchestration part of
    [main.js] (with the parts of [sheetBuilder.js] and [lockManager.js]
    that the orchestrator calls), followed by the properties of the
    flattening engine, the naming resolver and the identity guard.

    The program is JavaScript running on values produced by [JSON.parse],
    so the embedding works on a model of those values:

    - a number is an integer [Z] (the JSON numbers with an integral value
      in the safe range, whose decimal rendering is what a template
      literal prints; [-0] and [0] are the same falsy number);
    - a string is a [string]; one character stands for one code unit;
    - an array and an object carry the reference ([ref]) that gives them
      their identity, since a [Set] compares them by reference;
    - an object is the list of its own properties in the order
      [Object.entries] enumerates them.

    Code that can throw lives in the [Completion] monad. *)

From Stdlib Require Import ZArith Lia.
From stdpp Require Import base strings list pretty.

(** ** Values *)

Unset Elimination Schemes.
Inductive JValue : Type :=
| JUndefined
| JNull
| JBool (b : bool)
| JNum (n : Z)
| JStr (s : string)
| JArr (ref : nat) (items : list JValue)
| JObj (ref : nat) (props : list (string * JValue)).
Set Elimination Schemes.

(** Induction that reaches the elements of arrays and the values of
    properties. *)
Definition JValue_nested_ind (P : JValue → Prop)
    (Hundef : P JUndefined) (Hnull : P JNull)
    (Hbool : ∀ b, P (JBool b)) (Hnum : ∀ n, P (JNum n))
    (Hstr : ∀ s, P (JStr s))
    (Harr : ∀ r items, Forall P items → P (JArr r items))
    (Hobj : ∀ r props, Forall (λ kv, P kv.2) props → P (JObj r props)) :
    ∀ v, P v :=
  fix go (v : JValue) : P v :=
    match v with
    | JUndefined => Hundef
    | JNull => Hnull
    | JBool b => Hbool b
    | JNum n => Hnum n
    | JStr s => Hstr s
    | JArr r items =>
        Harr r items
          ((fix all (l : list JValue) : Forall P l :=
              match l with
              | [] => Forall_nil_2 P
              | x :: l' => Forall_cons_2 P x l' (go x) (all l')
              end) items)
    | JObj r props =>
        Hobj r props
          ((fix all (l : list (string * JValue)) : Forall (λ kv, P kv.2) l :=
              match l with
              | [] => Forall_nil_2 _
              | kv :: l' => Forall_cons_2 (λ kv, P kv.2) kv l' (go kv.2) (all l')
              end) props)
    end.

(** ** Errors and completions *)

Inductive JsError : Type :=
| TypeError (message : string)
| ReferenceError (message : string)
| SyntaxError (message : string)
| Error (message : string).

Definition error_message (e : JsError) : string :=
  match e with
  | TypeError m | ReferenceError m | SyntaxError m | Error m => m
  end.

Inductive Completion (A : Type) : Type :=
| Normal (a : A)
| Throw (e : JsError).
Arguments Normal {A} a.
Arguments Throw {A} e.

#[global] Instance completion_ret : MRet Completion := λ A a, Normal a.
#[global] Instance completion_bind : MBind Completion := λ A B f c,
  match c with
  | Normal a => f a
  | Throw e => Throw e
  end.

(** [xs.map(f)] and [xs.forEach(f)] with a callback that can throw: the
    first exception ends the traversal. *)
Fixpoint traverse {A B} (f : A → Completion B) (xs : list A)
    : Completion (list B) :=
  match xs with
  | [] => Normal []
  | x :: xs' => y ← f x; ys ← traverse f xs'; Normal (y :: ys)
  end.

(** ** Primitive operations of the language *)

(** [!v] is [negb (truthy v)]. *)
Definition truthy (v : JValue) : bool :=
  match v with
  | JUndefined | JNull => false
  | JBool b => b
  | JNum n => negb (n =? 0)%Z
  | JStr s => negb (String.eqb s "")
  | JArr _ _ | JObj _ _ => true
  end.

(** [a || b] on values already evaluated (the right operands of the
    program are property reads of an object already read, or literals). *)
Definition js_or (a b : JValue) : JValue := if truthy a then a else b.

Definition nullish (v : JValue) : bool :=
  match v with JUndefined | JNull => true | _ => false end.

Definition typeof (v : JValue) : string :=
  match v with
  | JUndefined => "undefined"
  | JNull | JArr _ _ | JObj _ _ => "object"
  | JBool _ => "boolean"
  | JNum _ => "number"
  | JStr _ => "string"
  end.

Definition isArray (v : JValue) : bool :=
  match v with JArr _ _ => true | _ => false end.

(** [v === "literal"]. *)
Definition strict_eq_str (v : JValue) (s : string) : bool :=
  match v with JStr t => String.eqb t s | _ => false end.

Fixpoint own_property (k : string) (props : list (string * JValue))
    : option JValue :=
  match props with
  | [] => None
  | (k', v) :: props' => if String.eqb k' k then Some v else own_property k props'
  end.

(** The value of [v.k] for a [v] that is neither [null] nor [undefined].
    The program reads only the names [template_name], [conversation_flow],
    [sections], [questions], [type], [id], ... and [length]; none of them
    is an index, and none but [length] lives on a prototype. *)
Definition prop (v : JValue) (k : string) : JValue :=
  match v with
  | JObj _ props => default JUndefined (own_property k props)
  | JArr _ items =>
      if String.eqb k "length" then JNum (Z.of_nat (length items)) else JUndefined
  | JStr s =>
      if String.eqb k "length" then JNum (Z.of_nat (String.length s)) else JUndefined
  | _ => JUndefined
  end.

(** [v.k]: reading a property of [null] or [undefined] throws. *)
Definition get_prop (v : JValue) (k : string) : Completion JValue :=
  if nullish v
  then Throw (TypeError ("Cannot read properties of " +:+
                (if v is JNull then "null" else "undefined") +:+
                " (reading '" +:+ k +:+ "')"))
  else Normal (prop v k).

(** [Number.isSafeInteger(n)]: the integers that a number holds exactly,
    and that [Number::toString] prints digit for digit. *)
Definition safe_integer (n : Z) : Prop := (Z.abs n ≤ 9007199254740991)%Z.

(** [Number::toString] on the safe integers: the decimal digits, with a
    minus sign when negative.  Larger integers, which the program would
    print rounded or with an exponent, are outside the model. *)
Definition number_to_string (n : Z) : string := pretty n.

Definition join (sep : string) (parts : list string) : string :=
  match parts with
  | [] => ""
  | p :: ps => foldl (λ acc q, acc +:+ sep +:+ q) p ps
  end.

(** [ToString], as a template literal, [String(v)] and
    [Array.prototype.join] apply it.  An array prints its elements joined
    by commas, with [null] and [undefined] printed as nothing.  An object
    prints as [[object Object]] through the inherited [toString]; an own
    property named [toString] coming from JSON is not callable, the
    inherited [valueOf] returns the object itself, and the conversion
    throws. *)
Fixpoint to_string (v : JValue) : Completion string :=
  match v with
  | JUndefined => Normal "undefined"
  | JNull => Normal "null"
  | JBool b => Normal (if b then "true" else "false")
  | JNum n => Normal (number_to_string n)
  | JStr s => Normal s
  | JArr _ items =>
      parts ← (fix elements (l : list JValue) : Completion (list string) :=
                 match l with
                 | [] => Normal []
                 | x :: l' =>
                     s ← (if nullish x then Normal "" else to_string x);
                     ss ← elements l';
                     Normal (s :: ss)
                 end) items;
      Normal (join "," parts)
  | JObj _ props =>
      match own_property "toString" props with
      | Some _ => Throw (TypeError "Cannot convert object to primitive value")
      | None => Normal "[object Object]"
      end
  end.

(** The element conversion of [Array.prototype.join]. *)
Definition join_element (x : JValue) : Completion string :=
  if nullish x then Normal "" else to_string x.

(** [items.join(sep)]. *)
Definition array_join (sep : string) (items : list JValue) : Completion string :=
  parts ← traverse join_element items; Normal (join sep parts).

Fixpoint indexed_from {A} (i : nat) (xs : list A) : list (string * A) :=
  match xs with
  | [] => []
  | x :: xs' => (pretty i, x) :: indexed_from (S i) xs'
  end.

(** The own enumerable string-keyed properties of a value that is neither
    [null] nor [undefined]: those of an object, the indexed elements of an
    array, the indexed characters of a string, none of a number or a
    boolean. *)
Definition entries_of (v : JValue) : list (string * JValue) :=
  match v with
  | JObj _ props => props
  | JArr _ items => indexed_from 0 items
  | JStr s =>
      indexed_from 0 ((λ c, JStr (String c EmptyString)) <$> String.list_ascii_of_string s)
  | _ => []
  end.

(** [Object.entries(v)]. *)
Definition object_entries (v : JValue) : Completion (list (string * JValue)) :=
  if nullish v
  then Throw (TypeError "Cannot convert undefined or null to object")
  else Normal (entries_of v).

(** [v.forEach(callback)], up to the callback: the elements visited.
    Only arrays have the method; a JSON object cannot hold a function.
    [callee] is the text of the receiver in the source, which the message
    of the error names. *)
Definition forEach_items (callee : string) (v : JValue)
    : Completion (list JValue) :=
  match v with
  | JArr _ items => Normal items
  | JUndefined =>
      Throw (TypeError "Cannot read properties of undefined (reading 'forEach')")
  | JNull =>
      Throw (TypeError "Cannot read properties of null (reading 'forEach')")
  | _ => Throw (TypeError (callee +:+ ".forEach is not a function"))
  end.

(** [v.join(sep)] on a value that need not be an array; [callee] as for
    [forEach_items]. *)
Definition method_join (callee : string) (v : JValue) (sep : string)
    : Completion string :=
  match v with
  | JArr _ items => array_join sep items
  | JUndefined =>
      Throw (TypeError "Cannot read properties of undefined (reading 'join')")
  | JNull =>
      Throw (TypeError "Cannot read properties of null (reading 'join')")
  | _ => Throw (TypeError (callee +:+ ".join is not a function"))
  end.

(** ** jsonParser.js *)

(** A flat row: the array of twelve cells that one question, or one field
    of a structured question, becomes. *)
Definition Row : Type := list JValue.

(** Column indices of a row. *)
Definition col_question_id : nat := 2.
Definition col_validation : nat := 7.

(** [formatValidation]: format validation rules. *)
Definition formatValidation (validation : JValue) : Completion string :=
  if negb (truthy validation) then Normal ""
  else match validation with
       | JStr s => Normal s                          (* typeof === 'string' *)
       | JNum n => Normal ("max_length: " +:+ number_to_string n)
                                                    (* typeof === 'number' *)
       | JNull | JArr _ _ | JObj _ _ =>             (* typeof === 'object' *)
           entries ← object_entries validation;
           parts ← traverse (λ '(key, value),
                       s ← to_string value; Normal (key +:+ ": " +:+ s)) entries;
           Normal (join ", " parts)
       | JUndefined | JBool _ => Normal ""
       end.

(** [formatMapsTo]: format the [maps_to] field. *)
Definition formatMapsTo (mapsTo : JValue) : Completion string :=
  if negb (truthy mapsTo) then Normal ""
  else if isArray mapsTo then method_join "mapsTo" mapsTo ", "
  else to_string mapsTo.

(** [formatExamples]: format the examples array. *)
Definition formatExamples (examples : JValue) : Completion string :=
  if negb (truthy examples) then Normal ""
  else if isArray examples then method_join "examples" examples " | "
  else to_string examples.

(** [options[0]]. *)
Definition first_item (v : JValue) : JValue :=
  match v with JArr _ (x :: _) => x | _ => JUndefined end.

(** [formatOptions]: format the options of select fields. *)
Definition formatOptions (options : JValue) : Completion string :=
  if negb (truthy options) then Normal ""
  else match options with
       | JArr _ items =>
           if String.eqb (typeof (first_item options)) "string"
           then array_join " | " items
           else if String.eqb (typeof (first_item options)) "object"
           then
             picked ← traverse (λ opt,
                         value ← get_prop opt "value";
                         if truthy value then Normal value
                         else get_prop opt "label") items;
             array_join " | " picked
           else Normal ""
       | _ => Normal ""
       end.

(** [isComplexType]: does the question type need special handling?
    [includes] compares with [SameValueZero], which on a string literal
    is [===]. *)
Definition complexTypes : list string :=
  [ "service_object"; "testimonial_object"; "social_links_object";
    "text_array"; "file_upload" ].

Definition isComplexType (type : JValue) : bool :=
  existsb (strict_eq_str type) complexTypes.

(** [processStandardQuestion]: a standard question becomes one row. *)
Definition processStandardQuestion (question section : JValue) : Completion Row :=
  section_id ← get_prop section "section_id";
  section_name ← get_prop section "section_name";
  id ← get_prop question "id";
  prompt ← get_prop question "question";
  context ← get_prop question "context";
  type ← get_prop question "type";
  required ← get_prop question "required";
  validation ← formatValidation (prop question "validation");
  mapsTo ← formatMapsTo (prop question "maps_to");
  examples ← formatExamples (prop question "examples");
  options ← formatOptions (prop question "options");
  Normal [ js_or section_id (JStr "");
           js_or section_name (JStr "");
           js_or id (JStr "");
           js_or prompt (JStr "");
           js_or context (JStr "");
           js_or type (JStr "text");
           (if required is JUndefined then JBool true else required);
           JStr validation;
           JStr mapsTo;
           js_or (prop question "default") (JStr "");
           JStr examples;
           JStr options ].

(** The row pushed for one entry of [fields] of a [service_object] or
    [testimonial_object] question. *)
Definition object_field_row (question section : JValue)
    (entry : string * JValue) : Completion Row :=
  let '(fieldName, fieldConfig) := entry in
  id ← to_string (prop question "id");
  prompt ← to_string (prop question "question");
  type ← get_prop fieldConfig "type";
  validation ← formatValidation
                  (js_or (prop fieldConfig "validation") (prop fieldConfig "max_length"));
  mapsTo ← formatMapsTo (prop question "maps_to");
  Normal [ js_or (prop section "section_id") (JStr "");
           js_or (prop section "section_name") (JStr "");
           JStr (id +:+ "." +:+ fieldName);
           JStr (prompt +:+ " - " +:+ fieldName);
           js_or (prop question "context") (JStr "");
           js_or type (JStr "text");
           js_or (prop fieldConfig "required") (JBool false);
           JStr validation;
           JStr (mapsTo +:+ "." +:+ fieldName);
           js_or (prop fieldConfig "default") (JStr "");
           JStr "";
           JStr "" ].

(** The row pushed for one entry of [fields] of a [social_links_object]
    question. *)
Definition social_link_row (question section : JValue)
    (entry : string * JValue) : Completion Row :=
  let '(platform, config) := entry in
  id ← to_string (prop question "id");
  prompt ← to_string (prop question "question");
  type ← get_prop config "type";
  mapsTo ← formatMapsTo (prop question "maps_to");
  Normal [ js_or (prop section "section_id") (JStr "");
           js_or (prop section "section_name") (JStr "");
           JStr (id +:+ "." +:+ platform);
           JStr (prompt +:+ " - " +:+ platform);
           js_or (prop question "context") (JStr "");
           js_or type (JStr "url");
           js_or (prop config "required") (JBool false);
           JStr "format: url";
           JStr (mapsTo +:+ "." +:+ platform);
           JStr "";
           JStr "";
           JStr "" ].

(** [parentRow[7] = value] where [parentRow] is [rows[0]]: the row is
    shared with [rows], so the assignment shows there. *)
Definition set_parent_validation (rows : list Row) (value : string) : list Row :=
  match rows with
  | parentRow :: rest => <[col_validation := JStr value]> parentRow :: rest
  | [] => []
  end.

(** [processComplexType]: a structured question becomes several rows.
    [question] and [section] were read by the caller, so they are neither
    [null] nor [undefined] once the parent row exists. *)
Definition processComplexType (question section : JValue)
    : Completion (list Row) :=
  (* Add parent row first *)
  parent ← processStandardQuestion question section;
  let rows := [parent] in
  let type := prop question "type" in
  (* Handle service_object and testimonial_object *)
  rows ← (if strict_eq_str type "service_object"
             || strict_eq_str type "testimonial_object"
          then
            if truthy (prop question "fields")
            then
              entries ← object_entries (prop question "fields");
              children ← traverse (object_field_row question section) entries;
              Normal (rows ++ children)
            else Normal rows
          else Normal rows);
  (* Handle social_links_object *)
  rows ← (if strict_eq_str type "social_links_object"
             && truthy (prop question "fields")
          then
            entries ← object_entries (prop question "fields");
            children ← traverse (social_link_row question section) entries;
            Normal (rows ++ children)
          else Normal rows);
  (* Handle text_array *)
  rows ← (if strict_eq_str type "text_array"
          then
            max_items ← to_string (js_or (prop question "max_items") (JNum 10));
            current ← to_string (default JUndefined (head rows ≫= (.!! col_validation)));
            Normal (set_parent_validation rows
                      ("max_items: " +:+ max_items +:+ ", " +:+ current))
          else Normal rows);
  (* Handle file_upload *)
  rows ← (if strict_eq_str type "file_upload"
          then
            file_types ← (if truthy (prop question "file_types")
                          then
                            joined ← method_join "question.file_types" (prop question "file_types") ",";
                            Normal ["file_types: " +:+ joined]
                          else Normal []);
            max_size ← (if truthy (prop question "max_size")
                        then
                          size ← to_string (prop question "max_size");
                          Normal ["max_size: " +:+ size]
                        else Normal []);
            Normal (set_parent_validation rows (join ", " (file_types ++ max_size)))
          else Normal rows);
  Normal rows.

(** The body of the inner [forEach] of [flattenIntakeJSON]: the rows one
    question adds to the result. *)
Definition question_rows (section question : JValue) : Completion (list Row) :=
  type ← get_prop question "type";
  if isComplexType type
  then processComplexType question section
  else row ← processStandardQuestion question section; Normal [row].

(** The body of the outer [forEach]: the rows of one section. *)
Definition section_rows (section : JValue) : Completion (list Row) :=
  questions ← get_prop section "questions";
  items ← forEach_items "section.questions" questions;
  rowss ← traverse (question_rows section) items;
  Normal (concat rowss).

Record ParsedData : Type := mkParsedData {
  rows : list Row;
  sectionCount : JValue
}.

(** [flattenIntakeJSON]: flatten the intake JSON into spreadsheet rows. *)
Definition flattenIntakeJSON (intakeData : JValue) : Completion ParsedData :=
  conversation_flow ← get_prop intakeData "conversation_flow";
  sections ← get_prop conversation_flow "sections";
  items ← forEach_items "intakeData.conversation_flow.sections" sections;
  rowss ← traverse section_rows items;
  Normal {| rows := concat rowss; sectionCount := prop sections "length" |}.

(** ** The host spreadsheet

    [SpreadsheetApp] is the host's document service.  The model keeps of
    it what the program can observe again or what a reader of the sheet
    sees: the sheets by name, the cell values of each sheet and the
    descriptions of its protections.  Colours, fonts, widths, borders and
    frozen rows are left out. *)

Record Sheet : Type := mkSheet {
  sheet_name : string;
  sheet_grid : list (list JValue);      (* row [i + 1] of the sheet at index [i] *)
  sheet_protections : list string
}.

Record Spreadsheet : Type := mkSpreadsheet {
  sheets : list Sheet
}.

(** [ss.getSheetByName(name)]: the sheet, or [null]. *)
Definition getSheetByName (ss : Spreadsheet) (name : string) : option Sheet :=
  find (λ sh, String.eqb (sheet_name sh) name) (sheets ss).

(** [ss.insertSheet(name)]: a new, empty sheet, here after the others. *)
Definition insertSheet (name : string) (ss : Spreadsheet) : Spreadsheet :=
  {| sheets := sheets ss ++ [mkSheet name [] []] |}.

Definition update_sheet (name : string) (f : Sheet → Sheet) (ss : Spreadsheet)
    : Spreadsheet :=
  {| sheets := (λ sh, if String.eqb (sheet_name sh) name then f sh else sh)
                 <$> sheets ss |}.

(** Writing in row [r]: the rows above it that the sheet lacks are
    empty. *)
Definition update_row (r : nat) (f : list JValue → list JValue)
    (grid : list (list JValue)) : list (list JValue) :=
  <[pred r := f (default [] (grid !! pred r))]> (grid ++ replicate (r - length grid) []).

(** Writing cell [c] of a row; the cells before it that the row lacks
    are empty. *)
Definition set_cell (c : nat) (value : JValue) (row : list JValue) : list JValue :=
  <[pred c := value]> (row ++ replicate (c - length row) (JStr "")).

(** Writing the first cells of row [r]; the cells after them stay. *)
Definition set_row (r : nat) (cells : list JValue) (grid : list (list JValue))
    : list (list JValue) :=
  update_row r (λ old, cells ++ drop (length cells) old) grid.

Fixpoint set_rows (r : nat) (block : list (list JValue))
    (grid : list (list JValue)) : list (list JValue) :=
  match block with
  | [] => grid
  | cells :: block' => set_rows (S r) block' (set_row r cells grid)
  end.

Definition with_grid (f : list (list JValue) → list (list JValue)) (sh : Sheet)
    : Sheet :=
  mkSheet (sheet_name sh) (f (sheet_grid sh)) (sheet_protections sh).

Definition protect (description : string) (sh : Sheet) : Sheet :=
  mkSheet (sheet_name sh) (sheet_grid sh) (sheet_protections sh ++ [description]).

(** Code that reads and changes the spreadsheet and can throw.  What was
    written before an exception stays written. *)
Definition Host (A : Type) : Type := Spreadsheet → Completion A * Spreadsheet.

#[global] Instance host_ret : MRet Host := λ A a ss, (Normal a, ss).
#[global] Instance host_bind : MBind Host := λ A B f m ss,
  match m ss with
  | (Normal a, ss') => f a ss'
  | (Throw e, ss') => (Throw e, ss')
  end.

Definition lift {A} (c : Completion A) : Host A := λ ss, (c, ss).
Definition read {A} (f : Spreadsheet → A) : Host A := λ ss, (Normal (f ss), ss).
Definition modify (f : Spreadsheet → Spreadsheet) : Host unit :=
  λ ss, (Normal (), f ss).

(** [ss.deleteSheet(sheet)]; the host refuses to remove the only sheet of
    a spreadsheet. *)
Definition deleteSheet (name : string) : Host unit :=
  sheets_before ← read sheets;
  if bool_decide (length sheets_before ≤ 1)
  then lift (Throw (Error "You can't remove all the sheets in a document."))
  else modify (λ ss, {| sheets := filter (λ sh, sheet_name sh ≠ name) (sheets ss) |}).

(** [sheet.getRange(r, 1, k, n).setValues(block)]; the host refuses a
    block one of whose rows has not the [n] cells of the range. *)
Definition setValues (sheet : string) (r n : nat) (block : list (list JValue))
    : Host unit :=
  match find (λ cells, negb (length cells =? n)) block with
  | Some cells =>
      lift (Throw (Error
        ("The number of columns in the data does not match the number of columns " +:+
         "in the range. The data has " +:+ pretty (length cells) +:+
         " but the range has " +:+ pretty n +:+ ".")))
  | None => modify (update_sheet sheet (with_grid (set_rows r block)))
  end.

(** [sheet.getRange(r, c).setValue(value)]. *)
Definition setValue (sheet : string) (r c : nat) (value : JValue) : Host unit :=
  modify (update_sheet sheet (with_grid (update_row r (set_cell c value)))).

(** ** sheetBuilder.js *)

Definition headers : list string :=
  [ "section_id"; "section_name"; "question_id"; "question"; "context"; "type";
    "required"; "validation"; "maps_to"; "default"; "examples"; "options" ].

(** [sheet.getRange(r, c, k).insertCheckboxes()]: the [k] cells of column
    [c] from row [r] down become check boxes, and their value becomes
    [false], the value of a box that is not checked. *)
Fixpoint insertCheckboxes (r c k : nat) (grid : list (list JValue))
    : list (list JValue) :=
  match k with
  | 0 => grid
  | S k' =>
      insertCheckboxes (S r) c k' (update_row r (set_cell c (JBool false)) grid)
  end.

(** [formatSheet]: apply formatting to the sheet.  The colours, the font,
    the frozen rows, the column widths of [setColumnWidths] and the borders
    leave the values of the cells as they are; the check boxes of the
    required column do not. *)
Definition formatSheet (sheet : string) (dataRowCount : nat) : Host unit :=
  (* Format required column as checkboxes *)
  if bool_decide (0 < dataRowCount)
  then modify (update_sheet sheet (with_grid (insertCheckboxes 4 7 dataRowCount)))
  else mret ().

(** [buildIntakeSheet]: build the intake sheet with the parsed data.  The
    result is the created sheet, known by its name. *)
Definition buildIntakeSheet (sheetName : string) (parsedData : ParsedData)
    : Host string :=
  (* Delete sheet if it exists *)
  existing ← read (λ ss, getSheetByName ss sheetName);
  _ ← (if existing is Some _ then deleteSheet sheetName else mret ());
  (* Create new sheet *)
  _ ← modify (insertSheet sheetName);
  (* Write headers (row 3 to leave room for metadata) *)
  _ ← setValues sheetName 3 (length headers) [ JStr <$> headers ];
  (* Write data rows *)
  _ ← (if bool_decide (0 < length (rows parsedData))
       then setValues sheetName 4 (length headers) (rows parsedData)
       else mret ());
  (* Apply formatting *)
  _ ← formatSheet sheetName (length (rows parsedData));
  mret sheetName.

(** ** lockManager.js *)

Definition addProtectionIndicator (sheet : string) : Host unit :=
  (* Add protection notice in row 2 *)
  _ ← setValue sheet 2 1 (JStr "🔒 LOCKED SCHEMA");
  setValue sheet 2 2
    (JStr "This sheet is protected and serves as an immutable reference").

Definition criticalColumns : list (string * nat) :=
  [ ("section_id", 1); ("section_name", 2); ("question_id", 3); ("maps_to", 9) ].

Definition protectCriticalColumns (sheet : string) : Host unit :=
  modify (update_sheet sheet (λ sh,
    foldl (λ sh column, protect ("Protected: " +:+ column.1 +:+ " - DO NOT MODIFY") sh)
          sh criticalColumns)).

(** [lockSchema]: lock the schema sheet to prevent modifications. *)
Definition lockSchema (sheet : string) : Host unit :=
  _ ← modify (update_sheet sheet (protect "Immutable schema — do not edit"));
  _ ← addProtectionIndicator sheet;
  protectCriticalColumns sheet.

(** ** main.js *)

(** The loop [while (ss.getSheetByName(`${baseName}_v${version}`)) version++].
    The source puts no bound on it; [fuel] counts the probes that the
    model allows, and [None] stands for a loop still running after them. *)
Fixpoint next_version (ss : Spreadsheet) (baseName : string) (fuel : nat)
    (version : Z) : option Z :=
  match fuel with
  | 0 => None
  | S fuel' =>
      if getSheetByName ss (baseName +:+ "_v" +:+ number_to_string version) is Some _
      then next_version ss baseName fuel' (version + 1)%Z
      else Some version
  end.

(** [getVersionedSheetName]: versioning of sheet names.  A spreadsheet of
    [n] sheets stops the loop within [n + 1] probes (see
    [next_version_enough_fuel]), so the branch of [None] is never taken. *)
Definition getVersionedSheetName (ss : Spreadsheet) (templateName : JValue)
    (forceNew : bool) : Completion string :=
  name ← to_string templateName;
  let baseName := "Intake_" +:+ name in
  if negb forceNew && negb (bool_decide (is_Some (getSheetByName ss baseName)))
  then Normal baseName
  else
    (* Find next available version *)
    match next_version ss baseName (S (length (sheets ss))) 2 with
    | Some version => Normal (baseName +:+ "_v" +:+ number_to_string version)
    | None => Throw (Error "the version search is still running")
    end.

(** [SameValueZero], the equality of [Set]: primitive values by value,
    arrays and objects by reference. *)
Definition same_value_zero (a b : JValue) : bool :=
  match a, b with
  | JUndefined, JUndefined | JNull, JNull => true
  | JBool x, JBool y => bool_decide (x = y)
  | JNum x, JNum y => (x =? y)%Z
  | JStr x, JStr y => String.eqb x y
  | JArr r _, JArr r' _ | JObj r _, JObj r' _ => (r =? r')%nat
  | _, _ => false
  end.

(** A [Set]: its elements in insertion order. *)
Definition JSet : Type := list JValue.

Definition set_has (s : JSet) (v : JValue) : bool :=
  existsb (same_value_zero v) s.

Definition set_add (s : JSet) (v : JValue) : JSet :=
  if set_has s v then s else s ++ [v].

(** [new Set(values)]. *)
Definition new_Set (values : list JValue) : JSet := foldl set_add [] values.

(** [checkDuplicateIds]: the question ids that occur more than once. *)
Definition checkDuplicateIds (rows : list Row) : list JValue :=
  let ids := (λ row : Row, default JUndefined (row !! col_question_id)) <$> rows in
                                        (* question_id is column 2 *)
  let '(seen, duplicates) :=
    foldl (λ '(seen, duplicates) id,
             (set_add seen id,
              if set_has seen id then duplicates ++ [id] else duplicates))
          ([], []) ids in
  new_Set duplicates.

(** The global scope of the script project: every top-level declaration
    of its files is a function, here with its number of parameters (the
    [length] of the function).  There is no module system, and no file
    declares a variable at top level. *)
Definition top_level_functions : list (string * nat) :=
  [ (* main.js *)
    ("onOpen", 0); ("showSidebar", 0); ("processIntakeJSON", 1);
    ("getVersionedSheetName", 2); ("checkDuplicateIds", 1); ("addMetadata", 2);
    ("previewJSON", 1); ("listSchemas", 0); ("showAbout", 0);
    (* jsonParser.js *)
    ("flattenIntakeJSON", 1); ("isComplexType", 1); ("processStandardQuestion", 2);
    ("processComplexType", 2); ("formatValidation", 1); ("formatMapsTo", 1);
    ("formatExamples", 1); ("formatOptions", 1);
    (* sheetBuilder.js *)
    ("buildIntakeSheet", 2); ("formatSheet", 2); ("setColumnWidths", 1);
    (* lockManager.js *)
    ("lockSchema", 1); ("addProtectionIndicator", 1); ("protectCriticalColumns", 1);
    ("isSheetLocked", 1); ("unlockSchema", 1); ("createBackupBeforeLock", 1) ].

(** [x.length] for an identifier [x] that no enclosing function declares:
    it is looked up in the global scope. *)
Definition global_length (x : string) : Completion JValue :=
  match find (λ f, String.eqb f.1 x) top_level_functions with
  | Some f => Normal (JNum (Z.of_nat f.2))
  | None => Throw (ReferenceError (x +:+ " is not defined"))
  end.

(** What [processIntakeJSON] returns: [{success: true, sheetName, rowCount,
    message}] or [{success: false, error}]. *)
Inductive ProcessResult : Type :=
| ProcessSuccess (sheetName : string) (rowCount : JValue) (message : string)
| ProcessFailure (error : string).

Definition success (r : ProcessResult) : bool :=
  match r with ProcessSuccess _ _ _ => true | ProcessFailure _ => false end.

(** What [previewJSON] returns. *)
Inductive PreviewResult : Type :=
| PreviewSuccess (templateName : JValue) (questionCount : JValue)
    (sectionCount : JValue) (hasDuplicates : bool) (duplicates : list JValue)
| PreviewFailure (error : string).

Section Orchestration.

(** [JSON.parse] is the host's; the program only needs its result. *)
Variable JSON_parse : string → Completion JValue.

(** [new Date().toLocaleString()] at the time of the call. *)
Variable now : string.

(** [addMetadata]: add the metadata row to the sheet. *)
Definition addMetadata (sheet : string) (intakeData : JValue) : Host unit :=
  _ ← modify (update_sheet sheet (with_grid (λ grid, [] :: grid)));
  _ ← modify (update_sheet sheet (with_grid (λ grid, [] :: grid)));
  template ← lift (to_string (prop intakeData "template_name"));
  version ← lift (to_string (js_or (prop intakeData "template_version") (JStr "1.0")));
  setValues sheet 1 4
    [ [ JStr "METADATA";
        JStr ("Template: " +:+ template);
        JStr ("Version: " +:+ version);
        JStr ("Imported: " +:+ now) ] ].

(** The [try] block of [processIntakeJSON]. *)
Definition processIntakeJSON_try (jsonContent : string) (forceNewVersion : bool)
    : Host ProcessResult :=
  (* Parse JSON *)
  intakeData ← lift (JSON_parse jsonContent);
  (* Validate structure *)
  template_name ← lift (get_prop intakeData "template_name");
  _ ← (if negb (truthy template_name)
       then lift (Throw (Error "Missing template_name in JSON"))
       else mret ());
  _ ← (if negb (truthy (prop intakeData "conversation_flow"))
          || negb (truthy (prop (prop intakeData "conversation_flow") "sections"))
       then lift (Throw (Error
              "Invalid JSON structure - missing conversation_flow.sections"))
       else mret ());
  (* Determine sheet name with versioning *)
  sheetName ← (λ ss, (getVersionedSheetName ss template_name forceNewVersion, ss));
  (* Call jsonParser to flatten data *)
  parsedData ← lift (flattenIntakeJSON intakeData);
  (* Check for duplicate IDs *)
  let duplicates := checkDuplicateIds (rows parsedData) in
  _ ← (if bool_decide (0 < length duplicates)
       then
         joined ← lift (array_join ", " duplicates);
         lift (Throw (Error ("Duplicate question IDs found: " +:+ joined)))
       else mret ());
  (* Call sheetBuilder to create sheet *)
  sheet ← buildIntakeSheet sheetName parsedData;
  (* Call lockManager to protect schema *)
  _ ← lockSchema sheet;
  (* Add metadata timestamp *)
  _ ← addMetadata sheet intakeData;
  (* return { success: true, sheetName, rowCount: rows.length, message } *)
  rowCount ← lift (global_length "rows");
  count ← lift (to_string rowCount);
  mret (ProcessSuccess sheetName rowCount
          ("Successfully created " +:+ sheetName +:+ " with " +:+ count +:+ " questions")).

(** [processIntakeJSON]: main orchestration, called from the UI. *)
Definition processIntakeJSON (jsonContent : string) (forceNewVersion : bool)
    (ss : Spreadsheet) : ProcessResult * Spreadsheet :=
  match processIntakeJSON_try jsonContent forceNewVersion ss with
  | (Normal result, ss') => (result, ss')
  | (Throw error, ss') => (ProcessFailure (error_message error), ss')
  end.

(** [previewJSON]: preview the JSON without creating a sheet. *)
Definition previewJSON (jsonContent : string) : PreviewResult :=
  match
    intakeData ← JSON_parse jsonContent;
    parsedData ← flattenIntakeJSON intakeData;
    let duplicates := checkDuplicateIds (rows parsedData) in
    Normal (PreviewSuccess
              (prop intakeData "template_name")
              (JNum (Z.of_nat (length (rows parsedData))))
              (prop (prop (prop intakeData "conversation_flow") "sections") "length")
              (bool_decide (0 < length duplicates))
              duplicates)
  with
  | Normal result => result
  | Throw error => PreviewFailure (error_message error)
  end.

End Orchestration.

(** * Shapes of documents and wording of the laws *)

(** Column indices of the remaining cells. *)
Definition col_section_id : nat := 0.
Definition col_section_name : nat := 1.
Definition col_question : nat := 3.
Definition col_context : nat := 4.
Definition col_type : nat := 5.
Definition col_required : nat := 6.
Definition col_maps_to : nat := 8.
Definition col_default : nat := 9.
Definition col_examples : nat := 10.
Definition col_options : nat := 11.

(** No object inside [v] has an own property named [toString]: every
    part of [v] can be printed. *)
Fixpoint plain (v : JValue) : bool :=
  match v with
  | JArr _ items => forallb plain items
  | JObj _ props =>
      negb (bool_decide (is_Some (own_property "toString" props)))
      && forallb (λ kv, plain kv.2) props
  | _ => true
  end.

(** An [options] array that starts with an object, an array or [null]
    holds no [null]. *)
Definition options_shape (options : JValue) : bool :=
  match options with
  | JArr _ items =>
      negb (String.eqb (typeof (first_item options)) "object")
      || forallb (λ x, negb (nullish x)) items
  | _ => true
  end.

(** The entries of the [fields] of a question; none when it has no
    [fields]. *)
Definition field_entries (question : JValue) : list (string * JValue) :=
  if truthy (prop question "fields") then entries_of (prop question "fields") else [].

Definition is_object_type (type : JValue) : bool :=
  strict_eq_str type "service_object" || strict_eq_str type "testimonial_object".

(** A question that the projector can read: it is not [null]; its
    [options] have the shape above; when its type expands [fields], no
    field is [null]; when it is a [file_upload], its [file_types] is
    absent (or another falsy value) or is an array. *)
Definition question_shape (question : JValue) : bool :=
  negb (nullish question)
  && options_shape (prop question "options")
  && (negb (is_object_type (prop question "type")
            || strict_eq_str (prop question "type") "social_links_object")
      || forallb (λ entry, negb (nullish entry.2)) (field_entries question))
  && (negb (strict_eq_str (prop question "type") "file_upload")
      || negb (truthy (prop question "file_types"))
      || isArray (prop question "file_types")).

(** A section whose [questions] is an array of such questions. *)
Definition section_shape (section : JValue) : bool :=
  match prop section "questions" with
  | JArr _ questions => forallb question_shape questions
  | _ => false
  end.

(** A document that can be printed and whose [conversation_flow.sections]
    is an array of such sections. *)
Definition document_shape (intakeData : JValue) : bool :=
  plain intakeData
  && match prop (prop intakeData "conversation_flow") "sections" with
     | JArr _ sections => forallb section_shape sections
     | _ => false
     end.

(** The root-level check of the orchestrator: the two guards of
    [processIntakeJSON] let the document through. *)
Definition structural_check (intakeData : JValue) : bool :=
  truthy (prop intakeData "template_name")
  && truthy (prop intakeData "conversation_flow")
  && truthy (prop (prop intakeData "conversation_flow") "sections").

(** The child row of the entry [(fieldName, fieldConfig)] of a
    [service_object] or [testimonial_object] question, cell by cell. *)
Definition object_child (question section : JValue) (entry : string * JValue)
    (row : Row) : Prop :=
  ∃ id prompt validation mapsTo,
    to_string (prop question "id") = Normal id
    ∧ to_string (prop question "question") = Normal prompt
    ∧ formatValidation (js_or (prop entry.2 "validation") (prop entry.2 "max_length"))
      = Normal validation
    ∧ formatMapsTo (prop question "maps_to") = Normal mapsTo
    ∧ length row = 12
    ∧ row !! col_section_id = Some (js_or (prop section "section_id") (JStr ""))
    ∧ row !! col_section_name = Some (js_or (prop section "section_name") (JStr ""))
    ∧ row !! col_question_id = Some (JStr (id +:+ "." +:+ entry.1))
    ∧ row !! col_question = Some (JStr (prompt +:+ " - " +:+ entry.1))
    ∧ row !! col_context = Some (js_or (prop question "context") (JStr ""))
    ∧ row !! col_type = Some (js_or (prop entry.2 "type") (JStr "text"))
    ∧ row !! col_required = Some (js_or (prop entry.2 "required") (JBool false))
    ∧ row !! col_validation = Some (JStr validation)
    ∧ row !! col_maps_to = Some (JStr (mapsTo +:+ "." +:+ entry.1))
    ∧ row !! col_default = Some (js_or (prop entry.2 "default") (JStr ""))
    ∧ row !! col_examples = Some (JStr "")
    ∧ row !! col_options = Some (JStr "").

(** The child row of the entry [(platform, config)] of a
    [social_links_object] question, cell by cell. *)
Definition social_child (question section : JValue) (entry : string * JValue)
    (row : Row) : Prop :=
  ∃ id prompt mapsTo,
    to_string (prop question "id") = Normal id
    ∧ to_string (prop question "question") = Normal prompt
    ∧ formatMapsTo (prop question "maps_to") = Normal mapsTo
    ∧ length row = 12
    ∧ row !! col_section_id = Some (js_or (prop section "section_id") (JStr ""))
    ∧ row !! col_section_name = Some (js_or (prop section "section_name") (JStr ""))
    ∧ row !! col_question_id = Some (JStr (id +:+ "." +:+ entry.1))
    ∧ row !! col_question = Some (JStr (prompt +:+ " - " +:+ entry.1))
    ∧ row !! col_context = Some (js_or (prop question "context") (JStr ""))
    ∧ row !! col_type = Some (js_or (prop entry.2 "type") (JStr "url"))
    ∧ row !! col_required = Some (js_or (prop entry.2 "required") (JBool false))
    ∧ row !! col_validation = Some (JStr "format: url")
    ∧ row !! col_maps_to = Some (JStr (mapsTo +:+ "." +:+ entry.1))
    ∧ row !! col_default = Some (JStr "")
    ∧ row !! col_examples = Some (JStr "")
    ∧ row !! col_options = Some (JStr "").

(** The part that [file_types] adds to the validation of a [file_upload]
    row: nothing when it is falsy, the joined list when it is an array. *)
Inductive file_types_part : JValue → list string → Prop :=
| file_types_omitted v :
    truthy v = false → file_types_part v []
| file_types_listed r items joined :
    array_join "," items = Normal joined →
    file_types_part (JArr r items) ["file_types: " +:+ joined].

(** The part that [max_size] adds: nothing when it is falsy. *)
Inductive max_size_part : JValue → list string → Prop :=
| max_size_omitted v :
    truthy v = false → max_size_part v []
| max_size_given v size :
    truthy v = true → to_string v = Normal size →
    max_size_part v ["max_size: " +:+ size].

(** The operator [a ?? b], which the law of expansion names where the
    program writes [a || b]. *)
Definition nullish_coalesce (a b : JValue) : JValue := if nullish a then b else a.

(** Does the object have an own property [k]? *)
Definition has_property (v : JValue) (k : string) : bool :=
  match v with
  | JObj _ props => bool_decide (is_Some (own_property k props))
  | _ => false
  end.

(** The validation of a [file_upload] row by the words of the overwrite
    law: each part is there when its property is present. *)
Definition file_validation_when_present (question : JValue) : Completion string :=
  file_types ← (if has_property question "file_types"
                then
                  joined ← method_join "question.file_types" (prop question "file_types") ",";
                  Normal ["file_types: " +:+ joined]
                else Normal []);
  max_size ← (if has_property question "max_size"
              then
                size ← to_string (prop question "max_size");
                Normal ["max_size: " +:+ size]
              else Normal []);
  Normal (join ", " (file_types ++ max_size)).

(** How often [id] occurs among [ids], occurrences compared as a [Set]
    compares them. *)
Definition occurrences (id : JValue) (ids : list JValue) : nat :=
  length (filter (λ x, same_value_zero id x = true) ids).

(** The identifiers of a row sequence (field index 2). *)
Definition question_ids (rows : list Row) : list JValue :=
  (λ row : Row, default JUndefined (row !! col_question_id)) <$> rows.

(** ** Documents of the test scenarios *)

Definition scenario_q1 : JValue :=
  JObj 4 [ ("id", JStr "q1"); ("question", JStr "Name?"); ("type", JStr "text") ].

Definition scenario_q2 : JValue :=
  JObj 5 [ ("id", JStr "q2"); ("question", JStr "Links");
           ("type", JStr "social_links_object");
           ("fields", JObj 6 [ ("twitter", JObj 7 [ ("type", JStr "url") ]) ]) ].

Definition scenario_section : JValue :=
  JObj 2 [ ("section_id", JStr "s1"); ("section_name", JStr "Basics");
           ("questions", JArr 3 [ scenario_q1; scenario_q2 ]) ].

(** The document of the end-to-end scenario. *)
Definition scenario_document : JValue :=
  JObj 0 [ ("template_name", JStr "Contact");
           ("conversation_flow", JObj 1 [ ("sections", JArr 8 [ scenario_section ]) ]) ].

(** The question of the overwrite law. *)
Definition upload_question : JValue :=
  JObj 10 [ ("id", JStr "logo"); ("question", JStr "Logo"); ("type", JStr "file_upload");
            ("validation", JStr "required field");
            ("file_types", JArr 11 [ JStr "pdf"; JStr "png" ]);
            ("max_size", JNum 5) ].

(** A [file_upload] question whose [max_size] is [0]. *)
Definition upload_question_zero : JValue :=
  JObj 12 [ ("id", JStr "logo"); ("question", JStr "Logo"); ("type", JStr "file_upload");
            ("file_types", JArr 13 [ JStr "pdf" ]);
            ("max_size", JNum 0) ].


(** A [service_object] question one of whose fields has an empty
    [validation] and a [max_length]. *)
Definition service_question : JValue :=
  JObj 15 [ ("id", JStr "svc"); ("question", JStr "Service");
            ("type", JStr "service_object"); ("maps_to", JStr "services");
            ("fields", JObj 16 [
               ("name", JObj 17 [ ("validation", JStr ""); ("max_length", JNum 50) ]);
               ("price", JObj 18 [ ("type", JStr "number"); ("required", JBool true) ]) ]) ].

(** A document that passes the root-level check and whose only section
    has no [questions]. *)
Definition document_without_questions : JValue :=
  JObj 0 [ ("template_name", JStr "T");
           ("conversation_flow", JObj 1 [ ("sections", JArr 2 [ JObj 3 [] ]) ]) ].

(** The spreadsheet of the naming collision walk. *)
Definition spreadsheet_X : Spreadsheet :=
  {| sheets := [ mkSheet "Intake_X" [] []; mkSheet "Intake_X_v2" [] [];
                 mkSheet "Intake_X_v3" [] [] ] |}.

(** Rows whose identifiers are the given strings. *)
Definition rows_with_ids (ids : list string) : list Row :=
  (λ id, [ JStr "s"; JStr "S"; JStr id; JStr ""; JStr ""; JStr "text"; JBool true;
           JStr ""; JStr ""; JStr ""; JStr ""; JStr "" ]) <$> ids.

(** ** Auxiliary notions of the proofs *)

(** A host computation that does not end in a success result. *)
Definition fruitless (m : Host ProcessResult) : Prop :=
  ∀ ss, match (m ss).1 with Normal r => success r = false | Throw _ => True end.

(** The name probed for a version: [`${baseName}_v${version}`]. *)
Definition version_name (baseName : string) (version : Z) : string :=
  baseName +:+ "_v" +:+ number_to_string version.

(** The state of the loop of [checkDuplicateIds] after the given ids:
    the set [seen] and the array [duplicates]. *)
Definition scan_ids (ids : list JValue) : JSet * list JValue :=
  foldl (λ '(seen, duplicates) id,
           (set_add seen id,
            if set_has seen id then duplicates ++ [id] else duplicates))
        ([], []) ids.

(** The row of [processStandardQuestion] with its four formatted cells
    given. *)
Definition standard_row (question section : JValue)
    (validation mapsTo examples options : string) : Row :=
  [ js_or (prop section "section_id") (JStr "");
    js_or (prop section "section_name") (JStr "");
    js_or (prop question "id") (JStr "");
    js_or (prop question "question") (JStr "");
    js_or (prop question "context") (JStr "");
    js_or (prop question "type") (JStr "text");
    (if prop question "required" is JUndefined then JBool true
     else prop question "required");
    JStr validation;
    JStr mapsTo;
    js_or (prop question "default") (JStr "");
    JStr examples;
    JStr options ].

(** ** Counting the rows of a document *)

(** The types whose [fields] become child rows. *)
Definition expands_fields (type : JValue) : bool :=
  is_object_type type || strict_eq_str type "social_links_object".

(** The number of rows that a question adds: one, and one more for each
    entry of its [fields] when its type expands them. *)
Definition row_contribution (question : JValue) : nat :=
  if expands_fields (prop question "type")
  then 1 + length (field_entries question)
  else 1.

Definition questions_of (section : JValue) : list JValue :=
  match prop section "questions" with JArr _ questions => questions | _ => [] end.

Definition sections_of (intakeData : JValue) : list JValue :=
  match prop (prop intakeData "conversation_flow") "sections" with
  | JArr _ sections => sections
  | _ => []
  end.

Definition expected_rows (intakeData : JValue) : nat :=
  sum_list ((λ section, sum_list (row_contribution <$> questions_of section))
              <$> sections_of intakeData).

(** ** main.js: the list of schema sheets *)

Definition newline : string := String (Ascii.ascii_of_nat 10) EmptyString.

(** The names that [listSchemas] keeps: those that start with
    [Intake_], in the order of the sheets. *)
Definition schema_names (ss : Spreadsheet) : list string :=
  filter (λ name, String.prefix "Intake_" name = true) (sheet_name <$> sheets ss).

(** [listSchemas]: list all schema sheets.  The result is the text of the
    alert that the function shows. *)
Definition listSchemas (ss : Spreadsheet) : string :=
  let schemas := schema_names ss in
  if bool_decide (length schemas = 0)
  then "No schema sheets found"
  else "Schema Sheets:" +:+ newline +:+ newline +:+ join newline schemas.

(** The cells that [lockSchema] and [addMetadata] write, and the
    protections that [lockSchema] adds. *)
Definition notice_row : list JValue :=
  [ JStr "🔒 LOCKED SCHEMA";
    JStr "This sheet is protected and serves as an immutable reference" ].

Definition metadata_row (template version now : string) : list JValue :=
  [ JStr "METADATA"; JStr ("Template: " +:+ template);
    JStr ("Version: " +:+ version); JStr ("Imported: " +:+ now) ].

Definition lock_protections : list string :=
  [ "Immutable schema — do not edit";
    "Protected: section_id - DO NOT MODIFY";
    "Protected: section_name - DO NOT MODIFY";
    "Protected: question_id - DO NOT MODIFY";
    "Protected: maps_to - DO NOT MODIFY" ].

(** A document whose only question has a standard type, and its
    flattening. *)
Definition standard_document : JValue :=
  JObj 0 [ ("template_name", JStr "Contact");
           ("conversation_flow",
            JObj 1 [ ("sections",
                      JArr 2 [ JObj 3 [ ("section_id", JStr "s1");
                                        ("section_name", JStr "Basics");
                                        ("questions", JArr 5 [ scenario_q1 ]) ] ]) ]) ].

Definition standard_parsed : ParsedData :=
  {| rows := [ standard_row scenario_q1 scenario_section "" "" "" "" ];
     sectionCount := JNum 1 |}.

(** The flattening of the document of the end-to-end scenario. *)
Definition scenario_parsed : ParsedData :=
  {| rows :=
       [ standard_row scenario_q1 scenario_section "" "" "" "";
         standard_row scenario_q2 scenario_section "" "" "" "";
         [ JStr "s1"; JStr "Basics"; JStr "q2.twitter"; JStr "Links - twitter";
           JStr ""; JStr "url"; JBool false; JStr "format: url"; JStr ".twitter";
           JStr ""; JStr ""; JStr "" ] ];
     sectionCount := JNum 1 |}.

(** A document in which two questions have the identifier [q1]. *)
Definition duplicate_document : JValue :=
  JObj 0 [ ("template_name", JStr "Contact");
           ("conversation_flow",
            JObj 1 [ ("sections",
                      JArr 2 [ JObj 3 [ ("section_id", JStr "s1");
                                        ("section_name", JStr "Basics");
                                        ("questions",
                                         JArr 5 [ scenario_q1; scenario_q1 ]) ] ]) ]) ].

Definition duplicate_parsed : ParsedData :=
  {| rows := [ standard_row scenario_q1 scenario_section "" "" "" "";
               standard_row scenario_q1 scenario_section "" "" "" "" ];
     sectionCount := JNum 1 |}.

(** A row that carries the identifier and the name of a section. *)
Definition row_of_section (section : JValue) (row : Row) : Prop :=
  row !! col_section_id = Some (js_or (prop section "section_id") (JStr ""))
  ∧ row !! col_section_name = Some (js_or (prop section "section_name") (JStr "")).

(** A row whose validation, maps_to, examples and options cells hold
    strings. *)
Definition formatted_cells (row : Row) : Prop :=
  (∃ text, row !! col_validation = Some (JStr text))
  ∧ (∃ text, row !! col_maps_to = Some (JStr text))
  ∧ (∃ text, row !! col_examples = Some (JStr text))
  ∧ (∃ text, row !! col_options = Some (JStr text)).

(** ** lockManager.js: unlocking *)

(** [sheet.getRange(r, 1, 1, n).clear()]: the first [n] cells of row [r]
    become empty; an empty cell reads as the empty string.  A row that
    was never written has no cell to clear. *)
Definition clear_row (r n : nat) (grid : list (list JValue)) : list (list JValue) :=
  match grid !! pred r with
  | Some row => <[pred r := replicate n (JStr "") ++ drop n row]> grid
  | None => grid
  end.

(** [unlockSchema]: unlock a schema sheet.  The protections of both
    kinds, of the sheet and of its ranges, are removed, and the place of
    the visual indicator, row 2, is cleared. *)
Definition unlockSchema (sheet : string) : Host unit :=
  _ ← modify (update_sheet sheet (λ sh, mkSheet (sheet_name sh) (sheet_grid sh) []));
  modify (update_sheet sheet (with_grid (clear_row 2 12))).

(** ** The grid of a built and of an imported sheet *)

(** The two cells that [addProtectionIndicator] writes in row 2. *)
Definition write_notice (grid : list (list JValue)) : list (list JValue) :=
  update_row 2 (set_cell 2 (default JUndefined (notice_row !! 1)))
    (update_row 2 (set_cell 1 (default JUndefined (notice_row !! 0))) grid).

(** The data rows as [buildIntakeSheet] leaves them: the required cell of
    each holds an unchecked box. *)
Definition data_rows (parsedData : ParsedData) : list (list JValue) :=
  set_cell 7 (JBool false) <$> rows parsedData.

(** The sheet that [buildIntakeSheet] creates. *)
Definition built_sheet (name : string) (parsedData : ParsedData) : Sheet :=
  mkSheet name ([ []; []; JStr <$> headers ] ++ data_rows parsedData) [].

(** The sheet that an import leaves. *)
Definition imported_sheet (name template version now : string)
    (parsedData : ParsedData) : Sheet :=
  mkSheet name
    ([ metadata_row template version now; []; []; notice_row; JStr <$> headers ]
     ++ data_rows parsedData)
    lock_protections.





(** * Proofs *)

(** ** Completions *)

Lemma bind_Normal {A B} (c : Completion A) (f : A → Completion B) (b : B) :
  c ≫= f = Normal b ↔ ∃ a, c = Normal a ∧ f a = Normal b.
Proof.
  destruct c as [a|e]; simpl; split.
  - intros H. exists a. done.
  - intros (a' & [= <-] & H). done.
  - discriminate.
  - intros (a' & [=] & _).
Qed.

Lemma traverse_Normal {A B} (f : A → Completion B) (xs : list A) (ys : list B) :
  traverse f xs = Normal ys ↔ Forall2 (λ x y, f x = Normal y) xs ys.
Proof.
  revert ys. induction xs as [|x xs IH]; intros ys; simpl.
  - split.
    + intros [= <-]. constructor.
    + intros H. by inversion H.
  - split.
    + intros H. apply bind_Normal in H as (y & Hy & H).
      apply bind_Normal in H as (ys' & Hys & [= <-]).
      constructor; [done | by apply IH].
    + intros H. inversion H as [|? y ? ys' Hy Hys]; subst.
      rewrite Hy. simpl. apply IH in Hys. by rewrite Hys.
Qed.

Lemma traverse_returns {A B} (f : A → Completion B) (xs : list A) :
  Forall (λ x, ∃ y, f x = Normal y) xs → ∃ ys, traverse f xs = Normal ys.
Proof.
  induction 1 as [|x xs [y Hy] _ [ys Hys]]; simpl.
  - by exists [].
  - rewrite Hy. simpl. rewrite Hys. simpl. by eexists.
Qed.

(** ** Printing *)

Lemma to_string_array r items : to_string (JArr r items) = array_join "," items.
Proof.
  unfold array_join. simpl. f_equal.
  induction items as [|x items IH]; [done|].
  simpl. unfold join_element at 1. by rewrite IH.
Qed.

Lemma forallb_Forall {A} (f : A → bool) (xs : list A) :
  forallb f xs = true ↔ Forall (λ x, f x = true) xs.
Proof.
  induction xs as [|x xs IH]; simpl.
  - split; [constructor | done].
  - rewrite andb_true_iff, IH. split.
    + intros [??]. by constructor.
    + intros H. inversion H. done.
Qed.

Lemma plain_own_property k props v :
  forallb (λ kv, plain kv.2) props = true → own_property k props = Some v →
  plain v = true.
Proof.
  induction props as [|[k' v'] props IH]; simpl; [done|].
  intros [Hv Hprops]%andb_prop. destruct (String.eqb k' k).
  - by intros [= <-].
  - by apply IH.
Qed.

Lemma plain_prop v k : plain v = true → plain (prop v k) = true.
Proof.
  destruct v as [| | | | |r items|r props]; simpl; try done.
  - by destruct (String.eqb k "length").
  - by destruct (String.eqb k "length").
  - intros [_ Hprops]%andb_prop.
    destruct (own_property k props) as [v|] eqn:Hk; simpl; [|done].
    by eapply plain_own_property.
Qed.

Lemma plain_js_or a b : plain a = true → plain b = true → plain (js_or a b) = true.
Proof. unfold js_or. by destruct (truthy a). Qed.

Lemma plain_indexed_from i items :
  forallb plain items = true →
  Forall (λ kv : string * JValue, plain kv.2 = true) (indexed_from i items).
Proof.
  revert i. induction items as [|x items IH]; intros i; simpl; [constructor|].
  intros [Hx Hitems]%andb_prop. constructor; [done | by apply IH].
Qed.

Lemma plain_entries_of v :
  plain v = true → Forall (λ kv : string * JValue, plain kv.2 = true) (entries_of v).
Proof.
  destruct v as [| | | |s|r items|r props]; simpl; try (intros; by constructor).
  - intros _. generalize 0. induction (String.list_ascii_of_string s) as [|c l IH];
      intros i; simpl; constructor; [done | apply IH].
  - apply plain_indexed_from.
  - intros [_ Hprops]%andb_prop. by apply forallb_Forall in Hprops.
Qed.

(** A value without own [toString] properties prints. *)
Lemma to_string_plain v : plain v = true → ∃ s, to_string v = Normal s.
Proof.
  induction v as [| | | | |r items IH|r props _] using JValue_nested_ind;
    simpl; try by eexists.
  - intros Hitems.
    assert (∃ parts, (fix elements (l : list JValue) : Completion (list string) :=
                 match l with
                 | [] => Normal []
                 | x :: l' =>
                     s ← (if nullish x then Normal "" else to_string x);
                     ss ← elements l';
                     Normal (s :: ss)
                 end) items = Normal parts) as [parts ->]; [|by eexists].
    induction IH as [|x items Hx _ IH']; [by eexists|].
    simpl in Hitems. apply andb_prop in Hitems as [Hpx Hitems].
    destruct (IH' Hitems) as [parts ->].
    destruct (nullish x); simpl; [by eexists|].
    destruct (Hx Hpx) as [s ->]. simpl. by eexists.
  - intros [Hno _]%andb_prop.
    destruct (own_property "toString" props) eqn:Hown; [|by eexists].
    exfalso. apply negb_true_iff, bool_decide_eq_false in Hno. apply Hno. by eexists.
Qed.

Lemma join_element_plain x : plain x = true → ∃ s, join_element x = Normal s.
Proof.
  intros Hx. unfold join_element. destruct (nullish x); [by eexists|].
  by apply to_string_plain.
Qed.

Lemma array_join_plain sep items :
  forallb plain items = true → ∃ s, array_join sep items = Normal s.
Proof.
  intros Hitems. unfold array_join.
  destruct (traverse_returns join_element items) as [parts ->]; [|by eexists].
  apply forallb_Forall in Hitems. eapply Forall_impl; [exact Hitems|].
  intros x Hx. by apply join_element_plain.
Qed.

(** ** The formatters on printable values *)

Lemma formatValidation_plain v : plain v = true → ∃ s, formatValidation v = Normal s.
Proof.
  intros Hv. unfold formatValidation.
  destruct (truthy v) eqn:Ht; simpl; [|by eexists].
  assert (∃ s, (entries ← object_entries v;
                parts ← traverse (λ '(key, value),
                          s ← to_string value; Normal (key +:+ ": " +:+ s)) entries;
                Normal (join ", " parts)) = Normal s) as Hobj.
  { unfold object_entries. destruct (nullish v) eqn:Hn.
    { by destruct v. }
    simpl.
    destruct (traverse_returns (λ '(key, value),
                s ← to_string value; Normal (key +:+ ": " +:+ s)) (entries_of v))
      as [parts ->]; [|by eexists].
    eapply Forall_impl; [by apply plain_entries_of|].
    intros [k x] Hx. simpl in Hx. destruct (to_string_plain x Hx) as [s ->].
    by eexists. }
  destruct v; try done; by eexists.
Qed.

Lemma formatMapsTo_plain v : plain v = true → ∃ s, formatMapsTo v = Normal s.
Proof.
  intros Hv. unfold formatMapsTo.
  destruct (truthy v); simpl; [|by eexists].
  destruct (isArray v) eqn:Harr; [|by apply to_string_plain].
  destruct v; try done. by apply array_join_plain.
Qed.

Lemma formatExamples_plain v : plain v = true → ∃ s, formatExamples v = Normal s.
Proof.
  intros Hv. unfold formatExamples.
  destruct (truthy v); simpl; [|by eexists].
  destruct (isArray v) eqn:Harr; [|by apply to_string_plain].
  destruct v; try done. by apply array_join_plain.
Qed.

Lemma formatOptions_plain v :
  plain v = true → options_shape v = true → ∃ s, formatOptions v = Normal s.
Proof.
  intros Hv Hshape. unfold formatOptions.
  destruct (truthy v); simpl; [|by eexists].
  destruct v as [| | | | |r items|]; try by eexists.
  simpl in Hv. unfold options_shape in Hshape.
  destruct (String.eqb (typeof (first_item (JArr r items))) "string") eqn:Hstr.
  { by apply array_join_plain. }
  destruct (String.eqb (typeof (first_item (JArr r items))) "object") eqn:Hobj;
    [|by eexists].
  simpl in Hshape.
  assert (∃ picked, traverse (λ opt,
             value ← get_prop opt "value";
             if truthy value then Normal value else get_prop opt "label") items
           = Normal picked ∧ forallb plain picked = true) as (picked & -> & Hpicked).
  { clear Hstr Hobj. induction items as [|x items IH]; simpl; [by eexists|].
    simpl in Hv, Hshape. apply andb_prop in Hv as [Hx Hv].
    apply andb_prop in Hshape as [Hnx Hshape].
    destruct (IH Hv Hshape) as (picked & -> & Hpicked).
    unfold get_prop. apply negb_true_iff in Hnx. rewrite Hnx. simpl.
    destruct (truthy (prop x "value")) eqn:Hval; simpl.
    - eexists. split; [done|]. simpl. by rewrite plain_prop.
    - eexists. split; [done|]. simpl. by rewrite plain_prop. }
  simpl. by apply array_join_plain.
Qed.

Lemma formatters_nullish :
  (formatValidation JNull = Normal "" ∧ formatValidation JUndefined = Normal "")
  ∧ (formatMapsTo JNull = Normal "" ∧ formatMapsTo JUndefined = Normal "")
  ∧ (formatExamples JNull = Normal "" ∧ formatExamples JUndefined = Normal "")
  ∧ (formatOptions JNull = Normal "" ∧ formatOptions JUndefined = Normal "").
Proof. repeat split. Qed.

(** C3 (the four formatters are total): [formatOptions] throws on every
    options array whose first element is [null]; the test
    [typeof options[0] === 'object'] lets [null] through, and the callback
    then reads [opt.value] of [null]. *)
Theorem formatOptions_null_option r rest :
  formatOptions (JArr r (JNull :: rest))
  = Throw (TypeError "Cannot read properties of null (reading 'value')").
Proof. reflexivity. Qed.

(** C4, as stated, fails at [0]: [formatValidation(0)] is the empty
    string, not ["max_length: 0"]. *)
Lemma formatValidation_zero :
  formatValidation (JNum 0) = Normal ""
  ∧ formatValidation (JNum 0) ≠ Normal ("max_length: " +:+ number_to_string 0).
Proof. split; [reflexivity | discriminate]. Qed.

(** C4 (amended): [formatValidation] gives the empty string on [null],
    [undefined] and [0], every string unchanged, ["max_length: n"] with
    [n] in decimal digits for every safe integer [n] other than [0], and
    for a mapping whose values print the entries ["k: v"] joined by [", "]
    in the order of the mapping. *)
Theorem formatValidation_cases :
  (formatValidation JNull = Normal "" ∧ formatValidation JUndefined = Normal "")
  ∧ (∀ s, formatValidation (JStr s) = Normal s)
  ∧ formatValidation (JNum 0) = Normal ""
  ∧ (∀ n, n ≠ 0%Z → safe_integer n →
       formatValidation (JNum n) = Normal ("max_length: " +:+ number_to_string n))
  ∧ (∀ r props texts,
       Forall2 (λ kv text, to_string kv.2 = Normal text) props texts →
       formatValidation (JObj r props)
       = Normal (join ", " (zip_with (λ kv text, kv.1 +:+ ": " +:+ text) props texts))).
Proof.
  repeat split.
  - intros s. unfold formatValidation. simpl.
    destruct (String.eqb s "") eqn:Hs; simpl; [|done].
    by apply String.eqb_eq in Hs as ->.
  - intros n Hn _. unfold formatValidation. simpl.
    destruct (Z.eqb_spec n 0); [done|]. done.
  - intros r props texts Hprops. unfold formatValidation. simpl.
    assert (traverse (λ '(key, value),
               s ← to_string value; Normal (key +:+ ": " +:+ s)) props
            = Normal (zip_with (λ kv text, kv.1 +:+ ": " +:+ text) props texts))
      as ->; [|done].
    apply traverse_Normal.
    induction Hprops as [|[k v] text props texts Hv _ IH]; simpl; constructor.
    + simpl in Hv. by rewrite Hv.
    + done.
Qed.

Lemma formatValidation_cases_witness :
  formatValidation (JNum 5) = Normal "max_length: 5"
  ∧ formatValidation (JObj 0 [("min", JNum 1); ("max", JNum 5)])
    = Normal "min: 1, max: 5".
Proof.
  split.
  - apply (proj1 (proj2 (proj2 (proj2 formatValidation_cases))) 5%Z).
    + lia.
    + unfold safe_integer. lia.
  - apply (proj2 (proj2 (proj2 (proj2 formatValidation_cases)))
             0 [("min", JNum 1); ("max", JNum 5)] ["1"; "5"]).
    repeat constructor.
Defined.

(** ** The orchestrator *)

Lemma global_length_rows :
  global_length "rows" = Throw (ReferenceError "rows is not defined").
Proof. reflexivity. Qed.

Lemma fruitless_bind {A} (m : Host A) (f : A → Host ProcessResult) :
  (∀ a, fruitless (f a)) → fruitless (m ≫= f).
Proof.
  intros Hf ss. unfold mbind, host_bind.
  destruct (m ss) as [[a|e] ss']; [apply Hf | done].
Qed.

Lemma fruitless_throw {A} e (f : A → Host ProcessResult) :
  fruitless (lift (Throw e) ≫= f).
Proof. intros ss. done. Qed.

Lemma processIntakeJSON_try_fruitless JSON_parse now jsonContent forceNewVersion :
  fruitless (processIntakeJSON_try JSON_parse now jsonContent forceNewVersion).
Proof.
  unfold processIntakeJSON_try.
  repeat first [ apply (fruitless_throw (ReferenceError "rows is not defined"))
               | apply fruitless_bind; intros ? ].
Qed.

(** [structural_check] is the check of the orchestrator: a document that
    does not pass it is refused before anything is written. *)
Lemma processIntakeJSON_refuses JSON_parse now jsonContent forceNewVersion ss
    intakeData :
  JSON_parse jsonContent = Normal intakeData →
  structural_check intakeData = false →
  ∃ error,
    processIntakeJSON JSON_parse now jsonContent forceNewVersion ss
    = (ProcessFailure error, ss).
Proof.
  intros Hparse Hcheck.
  unfold processIntakeJSON, processIntakeJSON_try, structural_check in *.
  unfold mbind at 1, host_bind, lift at 1. rewrite Hparse.
  unfold mbind at 1, host_bind, lift at 1, get_prop.
  destruct (nullish intakeData) eqn:Hnull; [by eexists|].
  unfold mbind at 1, host_bind.
  destruct (truthy (prop intakeData "template_name")); simpl in *; [|by eexists].
  unfold mbind at 1, host_bind. rewrite <- negb_andb, Hcheck. by eexists.
Qed.

(** C1 (a valid document ends in a success result): [processIntakeJSON]
    never returns a success result.  The [return] statement reads
    [rows.length], and [rows] is declared neither in the function nor at
    top level, so a document that passes every check ends in the [catch]
    with the message [rows is not defined], after its sheet was built and
    locked.  So it is for the document of the end-to-end scenario, which
    passes the root-level check and has no duplicate identifier. *)
Theorem processIntakeJSON_rows_not_defined :
  (∀ JSON_parse now jsonContent forceNewVersion ss,
     success (processIntakeJSON JSON_parse now jsonContent forceNewVersion ss).1 = false)
  ∧ (∀ now jsonContent,
       let outcome := processIntakeJSON (λ _, Normal scenario_document) now jsonContent
                        false {| sheets := [] |} in
       structural_check scenario_document = true
       ∧ (∃ parsedData, flattenIntakeJSON scenario_document = Normal parsedData
                        ∧ checkDuplicateIds (rows parsedData) = [])
       ∧ outcome.1 = ProcessFailure "rows is not defined"
       ∧ is_Some (getSheetByName outcome.2 "Intake_Contact")).
Proof.
  split.
  - intros JSON_parse now jsonContent forceNewVersion ss. unfold processIntakeJSON.
    pose proof (processIntakeJSON_try_fruitless JSON_parse now jsonContent
                  forceNewVersion ss) as H.
    destruct (processIntakeJSON_try _ _ _ _ ss) as [[r|e] ss']; done.
  - intros now jsonContent. repeat split.
    + by eexists.
    + by eexists.
Qed.

(** ** The naming resolver *)

Lemma version_name_inj baseName : Inj (=) (=) (version_name baseName).
Proof.
  intros j k H. unfold version_name in H.
  apply (inj (String.app baseName)) in H. apply (inj (String.app "_v")) in H.
  by apply (inj pretty) in H.
Qed.

Lemma getSheetByName_Some ss name :
  is_Some (getSheetByName ss name) → name ∈ sheet_name <$> sheets ss.
Proof.
  intros [sh Hsh]. unfold getSheetByName in Hsh.
  apply find_some in Hsh as [Hin Heq]. apply String.eqb_eq in Heq as <-.
  apply list_elem_of_fmap. exists sh. split; [done | by apply list_elem_of_In].
Qed.

(** What the loop returns is the first free version from its start. *)
Lemma next_version_Some ss baseName fuel version k :
  next_version ss baseName fuel version = Some k →
  (version ≤ k)%Z
  ∧ getSheetByName ss (version_name baseName k) = None
  ∧ ∀ j, (version ≤ j < k)%Z → is_Some (getSheetByName ss (version_name baseName j)).
Proof.
  revert version. induction fuel as [|fuel IH]; intros version; simpl; [done|].
  fold (version_name baseName version).
  destruct (getSheetByName ss (version_name baseName version)) as [sh|] eqn:Hsh.
  - intros H. apply IH in H as (Hle & Hfree & Hbelow).
    split; [lia|]. split; [done|].
    intros j Hj. destruct (decide (j = version)) as [->|Hne].
    + by eexists.
    + apply Hbelow. lia.
  - intros [= <-]. split; [lia|]. split; [done|]. intros j Hj. lia.
Qed.

(** A loop that is still running has found every probed name taken. *)
Lemma next_version_None ss baseName fuel version :
  next_version ss baseName fuel version = None →
  ∀ j, (version ≤ j < version + Z.of_nat fuel)%Z →
       is_Some (getSheetByName ss (version_name baseName j)).
Proof.
  revert version. induction fuel as [|fuel IH]; intros version; simpl.
  - intros _ j Hj. lia.
  - fold (version_name baseName version).
    destruct (getSheetByName ss (version_name baseName version)) as [sh|] eqn:Hsh;
      [|done].
    intros H j Hj. destruct (decide (j = version)) as [->|Hne].
    + by eexists.
    + apply (IH _ H). lia.
Qed.

(** The loop ends: a spreadsheet of [n] sheets cannot hold the [n + 1]
    names probed first. *)
Lemma next_version_enough_fuel ss baseName version :
  ∃ k, next_version ss baseName (S (length (sheets ss))) version = Some k.
Proof.
  destruct (next_version ss baseName (S (length (sheets ss))) version) as [k|] eqn:H;
    [by eexists|].
  exfalso. pose proof (next_version_None _ _ _ _ H) as Htaken.
  set (n := length (sheets ss)) in *.
  set (probed := version_name baseName <$> seqZ version (Z.of_nat (S n))).
  assert (length probed ≤ length (sheet_name <$> sheets ss)) as Hlen.
  { apply submseteq_length, NoDup_submseteq.
    - apply (NoDup_fmap_2 (version_name baseName)), NoDup_seqZ.
    - intros name (j & -> & Hj%elem_of_seqZ)%list_elem_of_fmap.
      apply getSheetByName_Some, Htaken. lia. }
  unfold probed in Hlen. rewrite !length_fmap, length_seqZ in Hlen.
  fold n in Hlen. lia.
Qed.

(** C9 (naming resolver): for a template name [templateName], the
    resolver returns ["Intake_{templateName}"] when [forceNew] is false
    and no sheet has that name; otherwise it returns
    ["Intake_{templateName}_v{k}"] for the smallest [k ≥ 2] whose name no
    sheet has.  With the sheets [Intake_X], [Intake_X_v2] and
    [Intake_X_v3] and [forceNew = false] it returns ["Intake_X_v4"]. *)
Theorem getVersionedSheetName_resolves :
  (∀ ss templateName forceNew,
     let baseName := "Intake_" +:+ templateName in
     ∃ name,
       getVersionedSheetName ss (JStr templateName) forceNew = Normal name
       ∧ (forceNew = false → getSheetByName ss baseName = None → name = baseName)
       ∧ (forceNew = true ∨ is_Some (getSheetByName ss baseName) →
          ∃ k, (2 ≤ k)%Z
               ∧ name = baseName +:+ "_v" +:+ number_to_string k
               ∧ getSheetByName ss name = None
               ∧ ∀ j, (2 ≤ j < k)%Z →
                      is_Some (getSheetByName ss
                                 (baseName +:+ "_v" +:+ number_to_string j))))
  ∧ getVersionedSheetName spreadsheet_X (JStr "X") false = Normal "Intake_X_v4".
Proof.
  split; [|reflexivity].
  intros ss templateName forceNew baseName.
  unfold getVersionedSheetName. cbn -[next_version]. fold baseName.
  destruct (next_version_enough_fuel ss baseName 2) as [k Hk].
  pose proof (next_version_Some _ _ _ _ _ Hk) as (Hle & Hfree & Hbelow).
  destruct forceNew; cbn -[next_version].
  - rewrite Hk. eexists. split; [done|]. split; [done|].
    intros _. exists k. done.
  - destruct (getSheetByName ss baseName) as [sh|] eqn:Hbase.
    + rewrite bool_decide_eq_true_2 by (by eexists). cbn -[next_version]. rewrite Hk.
      eexists. split; [done|]. split; [done|].
      intros _. exists k. done.
    + rewrite bool_decide_eq_false_2 by (by intros [? [=]]). simpl.
      eexists. split; [done|]. split; [done|].
      intros [[=]|[? [=]]].
Qed.

Lemma getVersionedSheetName_resolves_witness :
  ∃ name, getVersionedSheetName spreadsheet_X (JStr "Y") false = Normal name
          ∧ name = "Intake_Y".
Proof.
  destruct (proj1 getVersionedSheetName_resolves spreadsheet_X "Y" false)
    as (name & Hname & Hfresh & _).
  exists name. split; [exact Hname|]. apply Hfresh; reflexivity.
Defined.

(** ** The identity guard *)

Lemma same_value_zero_refl a : same_value_zero a a = true.
Proof.
  destruct a; simpl; try done.
  - by apply bool_decide_eq_true_2.
  - apply Z.eqb_refl.
  - apply String.eqb_refl.
  - apply Nat.eqb_refl.
  - apply Nat.eqb_refl.
Qed.

Lemma same_value_zero_sym a b : same_value_zero a b = same_value_zero b a.
Proof.
  destruct a, b; simpl; try done.
  - apply bool_decide_ext. naive_solver.
  - apply Z.eqb_sym.
  - apply String.eqb_sym.
  - apply Nat.eqb_sym.
  - apply Nat.eqb_sym.
Qed.

Lemma same_value_zero_trans a b c :
  same_value_zero a b = true → same_value_zero b c = true →
  same_value_zero a c = true.
Proof.
  destruct a, b; simpl; try done; destruct c; simpl; try done.
  - intros ->%bool_decide_eq_true. done.
  - intros ->%Z.eqb_eq. done.
  - intros ->%String.eqb_eq. done.
  - intros ->%Nat.eqb_eq. done.
  - intros ->%Nat.eqb_eq. done.
Qed.

(** Two ids that a [Set] takes for the same compare alike with any third. *)
Lemma same_value_zero_congr a b c :
  same_value_zero a b = true → same_value_zero a c = same_value_zero b c.
Proof.
  intros Hab. destruct (same_value_zero b c) eqn:Hbc.
  - by eapply same_value_zero_trans.
  - destruct (same_value_zero a c) eqn:Hac; [|done].
    rewrite same_value_zero_sym in Hab.
    by rewrite (same_value_zero_trans _ _ _ Hab Hac) in Hbc.
Qed.

Lemma occurrences_nil id : occurrences id [] = 0.
Proof. done. Qed.

Lemma occurrences_cons id x ids :
  occurrences id (x :: ids)
  = (if same_value_zero id x then 1 else 0) + occurrences id ids.
Proof.
  unfold occurrences. rewrite filter_cons.
  case_decide as Hx.
  - by rewrite Hx.
  - by destruct (same_value_zero id x).
Qed.

Lemma occurrences_app id ids ids' :
  occurrences id (ids ++ ids') = occurrences id ids + occurrences id ids'.
Proof. unfold occurrences. by rewrite filter_app, length_app. Qed.

Lemma occurrences_snoc id ids x :
  occurrences id (ids ++ [x])
  = occurrences id ids + (if same_value_zero id x then 1 else 0).
Proof.
  rewrite occurrences_app, occurrences_cons, occurrences_nil. lia.
Qed.

Lemma occurrences_congr a b ids :
  same_value_zero a b = true → occurrences a ids = occurrences b ids.
Proof.
  intros Hab. induction ids as [|x ids IH]; [done|].
  by rewrite !occurrences_cons, IH, (same_value_zero_congr a b x).
Qed.

Lemma set_has_occurrences s id : set_has s id = true ↔ 1 ≤ occurrences id s.
Proof.
  unfold set_has. induction s as [|x s IH]; simpl.
  - rewrite occurrences_nil. split; [done | lia].
  - rewrite occurrences_cons, orb_true_iff, IH.
    destruct (same_value_zero id x); [|lia]. split; [lia | by left].
Qed.

Lemma set_has_false s id : set_has s id = false ↔ occurrences id s = 0.
Proof. rewrite <- not_true_iff_false, set_has_occurrences. lia. Qed.

Lemma occurrences_set_add s v id :
  occurrences id (set_add s v)
  = if set_has s v then occurrences id s
    else occurrences id s + (if same_value_zero id v then 1 else 0).
Proof.
  unfold set_add. destruct (set_has s v); [done|]. apply occurrences_snoc.
Qed.

(** The loop keeps in [seen] the ids met once or more and in
    [duplicates] those met twice or more. *)
Lemma scan_ids_spec ids id :
  (set_has (scan_ids ids).1 id = true ↔ 1 ≤ occurrences id ids)
  ∧ (set_has (scan_ids ids).2 id = true ↔ 2 ≤ occurrences id ids).
Proof.
  revert id. induction ids as [|x ids IH] using rev_ind; intros id.
  { simpl. rewrite occurrences_nil. split; (split; [done | lia]). }
  unfold scan_ids in *. rewrite foldl_app. simpl.
  destruct (foldl _ _ ids) as [seen duplicates] eqn:Hscan. simpl in *.
  rewrite occurrences_snoc.
  destruct (IH id) as [IHseen IHdup]. destruct (IH x) as [IHseenx _].
  split.
  - rewrite set_has_occurrences, occurrences_set_add.
    rewrite set_has_occurrences in IHseen, IHseenx.
    destruct (set_has seen x) eqn:Hx.
    + destruct (same_value_zero id x) eqn:Hid; [|lia].
      rewrite (occurrences_congr id x) by done.
      apply set_has_occurrences in Hx. lia.
    + lia.
  - destruct (set_has seen x) eqn:Hx.
    + unfold set_has in *. rewrite existsb_app, orb_true_iff, IHdup. simpl.
      rewrite orb_false_r.
      destruct (same_value_zero id x) eqn:Hid; [|lia].
      rewrite (occurrences_congr id x) by done.
      destruct IHseenx as [IHseenx _]. specialize (IHseenx eq_refl).
      split; [lia | by right].
    + rewrite IHdup.
      destruct (same_value_zero id x) eqn:Hid; [|lia].
      rewrite (occurrences_congr id x) by done.
      assert (occurrences x ids = 0) as ->; [|lia].
      destruct (occurrences x ids) eqn:Ho; [done|].
      destruct IHseenx as [_ IHseenx]. discriminate IHseenx. lia.
Qed.

Lemma set_has_set_add s v id :
  set_has (set_add s v) id = set_has s id || same_value_zero id v.
Proof.
  unfold set_add. destruct (set_has s v) eqn:Hv.
  - destruct (same_value_zero id v) eqn:Hid; [|by rewrite orb_false_r].
    rewrite orb_true_r. apply set_has_occurrences.
    rewrite (occurrences_congr id v) by done. by apply set_has_occurrences.
  - unfold set_has. rewrite existsb_app. simpl. by rewrite orb_false_r.
Qed.

(** [new Set] keeps one occurrence of every value. *)
Lemma new_Set_from acc values id :
  (∀ x, occurrences x acc ≤ 1) →
  occurrences id (foldl set_add acc values)
  = if set_has acc id || set_has values id then 1 else 0.
Proof.
  revert acc. induction values as [|v values IH]; intros acc Hacc; simpl.
  - rewrite orb_false_r. specialize (Hacc id).
    destruct (set_has acc id) eqn:Hid.
    + apply set_has_occurrences in Hid. lia.
    + by apply set_has_false in Hid.
  - rewrite IH.
    + by rewrite set_has_set_add, orb_assoc.
    + intros x. rewrite occurrences_set_add. specialize (Hacc x).
      destruct (set_has acc v) eqn:Hv; [done|].
      destruct (same_value_zero x v) eqn:Hx; [|lia].
      apply set_has_false in Hv. rewrite (occurrences_congr x v) by done. lia.
Qed.

Lemma new_Set_spec values id :
  occurrences id (new_Set values) = if set_has values id then 1 else 0.
Proof.
  unfold new_Set. rewrite new_Set_from; [done|].
  intros x. rewrite occurrences_nil. lia.
Qed.

Lemma checkDuplicateIds_scan rows :
  checkDuplicateIds rows = new_Set (scan_ids (question_ids rows)).2.
Proof.
  unfold checkDuplicateIds, scan_ids, question_ids.
  by destruct (foldl _ _ _) as [seen duplicates].
Qed.

Lemma same_value_zero_string s v : same_value_zero (JStr s) v = true ↔ v = JStr s.
Proof.
  destruct v; simpl; try done. rewrite String.eqb_eq. split; congruence.
Qed.

Lemma elem_of_occurrences_string s ids : JStr s ∈ ids ↔ 1 ≤ occurrences (JStr s) ids.
Proof.
  induction ids as [|x ids IH].
  - rewrite occurrences_nil, elem_of_nil. lia.
  - rewrite occurrences_cons, elem_of_cons, IH.
    pose proof (same_value_zero_string s x) as Hx.
    destruct (same_value_zero (JStr s) x).
    + split; [lia|]. intros _. left. symmetry. by apply Hx.
    + split; [|lia]. intros [Heq|?]; [|lia].
      symmetry in Heq. apply Hx in Heq. done.
Qed.

(** C10 (duplicate identifiers): for every row sequence, an identifier
    is in the result of [checkDuplicateIds] once when it occurs more than
    once among the identifiers of the rows (field index 2), and not at all
    otherwise; so a string is in the result exactly when it is the
    identifier of two rows or more.  For the identifiers a, b, a, c, b, b
    the result is a, b. *)
Theorem checkDuplicateIds_duplicates :
  (∀ rows id,
     occurrences id (checkDuplicateIds rows)
     = if bool_decide (2 ≤ occurrences id (question_ids rows)) then 1 else 0)
  ∧ (∀ rows s,
       JStr s ∈ checkDuplicateIds rows
       ↔ 2 ≤ occurrences (JStr s) (question_ids rows))
  ∧ checkDuplicateIds (rows_with_ids ["a"; "b"; "a"; "c"; "b"; "b"])
    = [JStr "a"; JStr "b"].
Proof.
  assert (∀ rows id,
     occurrences id (checkDuplicateIds rows)
     = if bool_decide (2 ≤ occurrences id (question_ids rows)) then 1 else 0) as Hocc.
  { intros rows id. rewrite checkDuplicateIds_scan, new_Set_spec.
    destruct (scan_ids_spec (question_ids rows) id) as [_ Hdup].
    destruct (set_has _ id); case_bool_decide as H2; try done.
    - destruct H2. by apply Hdup.
    - by apply Hdup in H2. }
  split; [done|]. split; [|reflexivity].
  intros rows s. rewrite elem_of_occurrences_string, Hocc.
  case_bool_decide; lia.
Qed.

(** ** The row projector *)

Lemma get_prop_Normal v k : nullish v = false → get_prop v k = Normal (prop v k).
Proof. intros H. unfold get_prop. by rewrite H. Qed.

Lemma get_prop_returns v k x : get_prop v k = Normal x → nullish v = false.
Proof. unfold get_prop. by destruct (nullish v). Qed.

Lemma strict_eq_str_true v s : strict_eq_str v s = true ↔ v = JStr s.
Proof.
  destruct v; simpl; try done. rewrite String.eqb_eq. split; congruence.
Qed.

(** The standard projection returns exactly when the question and the
    section are not [null] and the four formatters return. *)
Lemma processStandardQuestion_Normal question section row :
  processStandardQuestion question section = Normal row ↔
  nullish section = false ∧ nullish question = false
  ∧ ∃ validation mapsTo examples options,
      formatValidation (prop question "validation") = Normal validation
      ∧ formatMapsTo (prop question "maps_to") = Normal mapsTo
      ∧ formatExamples (prop question "examples") = Normal examples
      ∧ formatOptions (prop question "options") = Normal options
      ∧ row = standard_row question section validation mapsTo examples options.
Proof.
  unfold processStandardQuestion, standard_row. split.
  - intros H.
    destruct (nullish section) eqn:Hs.
    { unfold get_prop in H. by rewrite Hs in H. }
    destruct (nullish question) eqn:Hq.
    { unfold get_prop in H. rewrite Hs, Hq in H. done. }
    rewrite !(get_prop_Normal section) in H by done.
    rewrite !(get_prop_Normal question) in H by done.
    simpl in H.
    apply bind_Normal in H as (validation & Hv & H).
    apply bind_Normal in H as (mapsTo & Hm & H).
    apply bind_Normal in H as (examples & He & H).
    apply bind_Normal in H as (options & Ho & [= <-]).
    do 2 (split; [done|]). by exists validation, mapsTo, examples, options.
  - intros (Hs & Hq & validation & mapsTo & examples & options
            & Hv & Hm & He & Ho & ->).
    rewrite !(get_prop_Normal section) by done.
    rewrite !(get_prop_Normal question) by done.
    simpl. rewrite Hv. simpl. rewrite Hm. simpl. rewrite He. simpl. by rewrite Ho.
Qed.

Lemma processStandardQuestion_returns question section :
  nullish section = false → nullish question = false →
  plain question = true → options_shape (prop question "options") = true →
  ∃ row, processStandardQuestion question section = Normal row.
Proof.
  intros Hs Hq Hplain Hshape.
  destruct (formatValidation_plain (prop question "validation")) as [validation Hv];
    [by apply plain_prop|].
  destruct (formatMapsTo_plain (prop question "maps_to")) as [mapsTo Hm];
    [by apply plain_prop|].
  destruct (formatExamples_plain (prop question "examples")) as [examples He];
    [by apply plain_prop|].
  destruct (formatOptions_plain (prop question "options")) as [options Ho];
    [by apply plain_prop | done |].
  eexists. apply processStandardQuestion_Normal.
  do 2 (split; [done|]). by exists validation, mapsTo, examples, options.
Qed.

(** The parent row has twelve cells, and its validation cell is the
    string that [formatValidation] computed. *)
Lemma parent_row_validation question section parent :
  processStandardQuestion question section = Normal parent →
  length parent = 12
  ∧ ∃ validation,
      formatValidation (prop question "validation") = Normal validation
      ∧ parent !! col_validation = Some (JStr validation).
Proof.
  intros (_ & _ & validation & mapsTo & examples & options
          & Hv & _ & _ & _ & ->)%processStandardQuestion_Normal.
  split; [done|]. by exists validation.
Qed.

(** The step of [flattenIntakeJSON] on a question of a complex type. *)
Lemma question_rows_complex question section parent :
  processStandardQuestion question section = Normal parent →
  isComplexType (prop question "type") = true →
  question_rows section question = processComplexType question section.
Proof.
  intros (_ & Hq & _)%processStandardQuestion_Normal Htype.
  unfold question_rows. rewrite get_prop_Normal by done. simpl. by rewrite Htype.
Qed.

(** The rows of a [text_array] question. *)
Lemma text_array_rows question section parent max_items validation :
  prop question "type" = JStr "text_array" →
  processStandardQuestion question section = Normal parent →
  to_string (js_or (prop question "max_items") (JNum 10)) = Normal max_items →
  parent !! col_validation = Some (JStr validation) →
  question_rows section question
  = Normal [ <[col_validation :=
                 JStr ("max_items: " +:+ max_items +:+ ", " +:+ validation)]> parent ].
Proof.
  intros Htype Hparent Hmax Hcell.
  rewrite (question_rows_complex _ _ parent) by (done || by rewrite Htype).
  unfold processComplexType. rewrite Hparent, Htype. simpl.
  rewrite Hmax. simpl. rewrite Hcell. done.
Qed.




(** C5, as stated, fails when [max_size] is present and is [0]: the
    question has [file_types: ["pdf"]] and [max_size: 0]; by the words of
    the law the validation is ["file_types: pdf, max_size: 0"], and the
    program writes ["file_types: pdf"]. *)
Lemma file_upload_zero_max_size :
  has_property upload_question_zero "max_size" = true
  ∧ file_validation_when_present upload_question_zero
    = Normal "file_types: pdf, max_size: 0"
  ∧ ∃ row, question_rows scenario_section upload_question_zero = Normal [row]
           ∧ row !! col_validation = Some (JStr "file_types: pdf")
           ∧ Normal "file_types: pdf"
             ≠ file_validation_when_present upload_question_zero.
Proof. split; [reflexivity|]. split; [reflexivity|]. by eexists. Qed.

(** The rows of a [file_upload] question. *)
Lemma file_upload_rows question section parent types size :
  prop question "type" = JStr "file_upload" →
  processStandardQuestion question section = Normal parent →
  file_types_part (prop question "file_types") types →
  max_size_part (prop question "max_size") size →
  question_rows section question
  = Normal [ <[col_validation := JStr (join ", " (types ++ size))]> parent ].
Proof.
  intros Htype Hparent Htypes Hsize.
  rewrite (question_rows_complex _ _ parent) by (done || by rewrite Htype).
  unfold processComplexType. rewrite Hparent, Htype. simpl.
  assert ((if truthy (prop question "file_types")
           then joined ← method_join "question.file_types" (prop question "file_types") ",";
                Normal ["file_types: " +:+ joined]
           else Normal []) = Normal types) as ->.
  { destruct Htypes as [v Hv|r items joined Hjoin].
    - by rewrite Hv.
    - simpl. by rewrite Hjoin. }
  assert ((if truthy (prop question "max_size")
           then size ← to_string (prop question "max_size");
                Normal ["max_size: " +:+ size]
           else Normal []) = Normal size) as ->.
  { destruct Hsize as [v Hv|v text Hv Htext].
    - by rewrite Hv.
    - rewrite Hv, Htext. done. }
  done.
Qed.

(** C5 (amended): a [file_upload] question whose standard projection is
    [parent] adds exactly one row to the flattening: [parent] with its
    validation cell replaced by the parts joined with [", "], where the
    parts are ["file_types: {file_types.join(',')}"] when [file_types] is
    truthy (it is then an array whose elements print) and
    ["max_size: {max_size}"] when [max_size] is truthy (so not when it is
    [0]) and prints; what [formatValidation] computed is dropped.  With validation ["required field"], file types
    pdf and png and size 5 the cell is ["file_types: pdf,png, max_size: 5"];
    with neither part it is the empty string. *)
Theorem file_upload_single_row :
  (∀ question section parent types size,
     prop question "type" = JStr "file_upload" →
     processStandardQuestion question section = Normal parent →
     file_types_part (prop question "file_types") types →
     max_size_part (prop question "max_size") size →
     question_rows section question
     = Normal [ <[col_validation := JStr (join ", " (types ++ size))]> parent ])
  ∧ (∀ question section parent,
       prop question "type" = JStr "file_upload" →
       processStandardQuestion question section = Normal parent →
       prop question "file_types" = JUndefined →
       prop question "max_size" = JUndefined →
       question_rows section question
       = Normal [ <[col_validation := JStr ""]> parent ])
  ∧ (formatValidation (prop upload_question "validation") = Normal "required field"
     ∧ question_rows scenario_section upload_question
       = Normal [ standard_row upload_question scenario_section
                    "file_types: pdf,png, max_size: 5" "" "" "" ]).
Proof.
  split; [exact file_upload_rows|]. split; [|split; reflexivity].
  intros question section parent Htype Hparent Hft Hms.
  apply (file_upload_rows question section parent [] []); try done.
  - rewrite Hft. by constructor.
  - rewrite Hms. by constructor.
Qed.

Lemma file_upload_single_row_witness :
  question_rows scenario_section upload_question
  = Normal [ <[col_validation := JStr "file_types: pdf,png, max_size: 5"]>
               (standard_row upload_question scenario_section
                  "required field" "" "" "") ].
Proof.
  apply (proj1 file_upload_single_row upload_question scenario_section
           (standard_row upload_question scenario_section "required field" "" "" "")
           ["file_types: pdf,png"] ["max_size: 5"]).
  - reflexivity.
  - reflexivity.
  - apply (file_types_listed 11 [JStr "pdf"; JStr "png"] "pdf,png"). reflexivity.
  - apply (max_size_given (JNum 5) "5"); reflexivity.
Defined.

Lemma traverse_related {A B} (f : A → Completion B) (R : A → B → Prop) (xs : list A) :
  Forall (λ x, ∃ y, f x = Normal y ∧ R x y) xs →
  ∃ ys, traverse f xs = Normal ys ∧ Forall2 R xs ys.
Proof.
  induction 1 as [|x xs (y & Hy & HR) _ (ys & Hys & HRs)]; simpl.
  - exists []. by split; [|constructor].
  - rewrite Hy. simpl. rewrite Hys. simpl.
    exists (y :: ys). by split; [|constructor].
Qed.

Lemma plain_field_entries question :
  plain question = true →
  Forall (λ entry : string * JValue, plain entry.2 = true) (field_entries question).
Proof.
  intros Hq. unfold field_entries. destruct (truthy _); [|constructor].
  by apply plain_entries_of, plain_prop.
Qed.

(** The entries that [Object.entries(question.fields)] gives when the
    guard [if (question.fields)] lets through. *)
Lemma object_entries_fields question :
  truthy (prop question "fields") = true →
  object_entries (prop question "fields") = Normal (field_entries question).
Proof.
  intros Hf. unfold object_entries, field_entries. rewrite Hf.
  by destruct (prop question "fields").
Qed.

Lemma field_entries_falsy question :
  truthy (prop question "fields") = false → field_entries question = [].
Proof. intros Hf. unfold field_entries. by rewrite Hf. Qed.

Lemma object_field_row_child question section entry mapsTo :
  plain question = true → plain entry.2 = true → nullish entry.2 = false →
  formatMapsTo (prop question "maps_to") = Normal mapsTo →
  ∃ row, object_field_row question section entry = Normal row
         ∧ object_child question section entry row.
Proof.
  intros Hq Hconfig Hnull Hm. destruct entry as [fieldName fieldConfig].
  simpl in Hconfig, Hnull.
  destruct (to_string_plain (prop question "id")) as [id Hid];
    [by apply plain_prop|].
  destruct (to_string_plain (prop question "question")) as [prompt Hprompt];
    [by apply plain_prop|].
  destruct (formatValidation_plain
              (js_or (prop fieldConfig "validation") (prop fieldConfig "max_length")))
    as [validation Hv]; [by apply plain_js_or; apply plain_prop|].
  unfold object_field_row.
  rewrite Hid, Hprompt, (get_prop_Normal fieldConfig) by done. simpl.
  rewrite Hv, Hm. simpl. eexists. split; [done|].
  exists id, prompt, validation, mapsTo. repeat split; done.
Qed.

Lemma social_link_row_child question section entry mapsTo :
  plain question = true → nullish entry.2 = false →
  formatMapsTo (prop question "maps_to") = Normal mapsTo →
  ∃ row, social_link_row question section entry = Normal row
         ∧ social_child question section entry row.
Proof.
  intros Hq Hnull Hm. destruct entry as [platform config]. simpl in Hnull.
  destruct (to_string_plain (prop question "id")) as [id Hid];
    [by apply plain_prop|].
  destruct (to_string_plain (prop question "question")) as [prompt Hprompt];
    [by apply plain_prop|].
  unfold social_link_row.
  rewrite Hid, Hprompt, (get_prop_Normal config) by done. simpl.
  rewrite Hm. simpl. eexists. split; [done|].
  exists id, prompt, mapsTo. repeat split; done.
Qed.

Lemma parent_row_maps_to question section parent :
  processStandardQuestion question section = Normal parent →
  ∃ mapsTo, formatMapsTo (prop question "maps_to") = Normal mapsTo.
Proof.
  intros (_ & _ & validation & mapsTo & examples & options
          & _ & Hm & _)%processStandardQuestion_Normal.
  by exists mapsTo.
Qed.

(** The rows of a question whose type expands [fields], given those of
    its fields. *)
Lemma object_type_rows question section parent children :
  is_object_type (prop question "type") = true →
  processStandardQuestion question section = Normal parent →
  traverse (object_field_row question section) (field_entries question)
  = Normal children →
  question_rows section question = Normal (parent :: children).
Proof.
  intros Htype Hparent Hchildren.
  assert (isComplexType (prop question "type") = true) as Hcomplex.
  { unfold is_object_type in Htype.
    apply orb_true_iff in Htype as [->%strict_eq_str_true| ->%strict_eq_str_true];
      reflexivity. }
  rewrite (question_rows_complex _ _ parent) by done.
  unfold processComplexType. rewrite Hparent.
  assert (strict_eq_str (prop question "type") "social_links_object" = false
          ∧ strict_eq_str (prop question "type") "text_array" = false
          ∧ strict_eq_str (prop question "type") "file_upload" = false)
    as (Hsocial & Harray & Hupload).
  { unfold is_object_type in Htype.
    apply orb_true_iff in Htype as [->%strict_eq_str_true| ->%strict_eq_str_true];
      done. }
  unfold is_object_type in Htype. cbn [mbind completion_bind].
  rewrite Htype, Hsocial, Harray, Hupload.
  destruct (truthy (prop question "fields")) eqn:Hf.
  - rewrite object_entries_fields by done. cbn [mbind completion_bind andb].
    rewrite Hchildren. done.
  - rewrite field_entries_falsy in Hchildren by done.
    injection Hchildren as <-. done.
Qed.

Lemma social_type_rows question section parent children :
  prop question "type" = JStr "social_links_object" →
  processStandardQuestion question section = Normal parent →
  traverse (social_link_row question section) (field_entries question)
  = Normal children →
  question_rows section question = Normal (parent :: children).
Proof.
  intros Htype Hparent Hchildren.
  rewrite (question_rows_complex _ _ parent) by (done || by rewrite Htype).
  unfold processComplexType. rewrite Hparent, Htype.
  cbn [mbind completion_bind strict_eq_str]. simpl (String.eqb _ _).
  cbn [orb andb mbind completion_bind].
  destruct (truthy (prop question "fields")) eqn:Hf.
  - rewrite object_entries_fields by done. cbn [mbind completion_bind].
    rewrite Hchildren. done.
  - rewrite field_entries_falsy in Hchildren by done.
    injection Hchildren as <-. done.
Qed.

(** C7, as stated, fails for a field whose [validation] is the empty
    string and that has a [max_length]: the program formats
    [validation || max_length], here [50], where the law names
    [validation ?? max_length], here the empty string. *)
Lemma service_field_falsy_validation :
  let config := prop (prop service_question "fields") "name" in
  formatValidation (nullish_coalesce (prop config "validation") (prop config "max_length"))
  = Normal ""
  ∧ ∃ parent child rest,
      question_rows scenario_section service_question
      = Normal (parent :: child :: rest)
      ∧ child !! col_question_id = Some (JStr "svc.name")
      ∧ child !! col_validation = Some (JStr "max_length: 50")
      ∧ Normal "max_length: 50"
        ≠ formatValidation (nullish_coalesce (prop config "validation")
                              (prop config "max_length")).
Proof. split; [reflexivity|]. by do 3 eexists. Qed.

(** The child rows of a question whose type expands [fields] exist. *)
Lemma object_children_exist question section parent :
  processStandardQuestion question section = Normal parent →
  plain question = true →
  Forall (λ entry, nullish entry.2 = false) (field_entries question) →
  ∃ children,
    traverse (object_field_row question section) (field_entries question)
    = Normal children
    ∧ Forall2 (object_child question section) (field_entries question) children.
Proof.
  intros Hparent Hplain Hfields.
  destruct (parent_row_maps_to _ _ _ Hparent) as [mapsTo Hm].
  apply traverse_related.
  pose proof (plain_field_entries question Hplain) as Hplains.
  apply Forall_forall. intros entry Hentry.
  rewrite Forall_forall in Hplains, Hfields.
  eapply object_field_row_child; eauto.
Qed.

Lemma social_children_exist question section parent :
  processStandardQuestion question section = Normal parent →
  plain question = true →
  Forall (λ entry, nullish entry.2 = false) (field_entries question) →
  ∃ children,
    traverse (social_link_row question section) (field_entries question)
    = Normal children
    ∧ Forall2 (social_child question section) (field_entries question) children.
Proof.
  intros Hparent Hplain Hfields.
  destruct (parent_row_maps_to _ _ _ Hparent) as [mapsTo Hm].
  apply traverse_related.
  eapply Forall_impl; [exact Hfields|].
  intros entry Hn. by eapply social_link_row_child.
Qed.

(** C7 (amended): a [service_object] or [testimonial_object] question
    without own [toString] properties, whose standard projection is
    [parent] and whose [fields] has [N] entries, none of them [null], adds
    exactly [1 + N] rows to the flattening: [parent], then one child row
    per entry in the order of the entries, each as [object_child] words
    it, with validation [formatValidation(validation || max_length)]. *)
Theorem object_question_rows question section parent :
  is_object_type (prop question "type") = true →
  processStandardQuestion question section = Normal parent →
  plain question = true →
  Forall (λ entry, nullish entry.2 = false) (field_entries question) →
  ∃ children,
    question_rows section question = Normal (parent :: children)
    ∧ length (parent :: children) = 1 + length (field_entries question)
    ∧ Forall2 (object_child question section) (field_entries question) children.
Proof.
  intros Htype Hparent Hplain Hfields.
  destruct (object_children_exist _ _ _ Hparent Hplain Hfields)
    as (children & Hchildren & Hrel).
  exists children. split; [by apply object_type_rows|]. split; [|done].
  simpl. f_equal. symmetry. by eapply Forall2_length.
Qed.

Lemma object_question_rows_witness :
  ∃ children,
    question_rows scenario_section service_question
    = Normal (standard_row service_question scenario_section "" "services" "" ""
              :: children)
    ∧ length (standard_row service_question scenario_section "" "services" "" ""
              :: children) = 1 + length (field_entries service_question)
    ∧ Forall2 (object_child service_question scenario_section)
        (field_entries service_question) children.
Proof.
  apply (object_question_rows service_question scenario_section
           (standard_row service_question scenario_section "" "services" "" "")).
  - reflexivity.
  - reflexivity.
  - reflexivity.
  - repeat constructor.
Defined.




(** ** The flattening engine *)

Lemma isComplexType_true type :
  isComplexType type = true →
  is_object_type type = true
  ∨ type = JStr "social_links_object"
  ∨ type = JStr "text_array"
  ∨ type = JStr "file_upload".
Proof.
  unfold isComplexType, is_object_type, complexTypes. cbn [existsb].
  rewrite !orb_true_iff, <- !strict_eq_str_true.
  intros [?|[?|[?|[?|[?|?]]]]]; auto. done.
Qed.

Lemma nullish_prop v k : nullish (prop v k) = false → nullish v = false.
Proof. by destruct v. Qed.

Lemma file_types_part_exists v :
  plain v = true → negb (truthy v) || isArray v = true →
  ∃ types, file_types_part v types.
Proof.
  intros Hplain Hshape. destruct (truthy v) eqn:Ht.
  - destruct v as [| | | | |r items|]; try done.
    destruct (array_join_plain "," items Hplain) as [joined Hjoined].
    eexists. by eapply file_types_listed.
  - eexists. by apply file_types_omitted.
Qed.

Lemma max_size_part_exists v : plain v = true → ∃ size, max_size_part v size.
Proof.
  intros Hplain. destruct (truthy v) eqn:Ht.
  - destruct (to_string_plain v Hplain) as [size Hsize].
    eexists. by eapply max_size_given.
  - eexists. by apply max_size_omitted.
Qed.

(** Every question of the shape that the projector can read gives rows. *)
Lemma question_rows_returns section question :
  nullish section = false → plain question = true →
  question_shape question = true →
  ∃ rows, question_rows section question = Normal rows.
Proof.
  intros Hsection Hplain Hshape. unfold question_shape in Hshape.
  apply andb_prop in Hshape as [Hshape Hupload].
  apply andb_prop in Hshape as [Hshape Hfields].
  apply andb_prop in Hshape as [Hq%negb_true_iff Hoptions].
  destruct (processStandardQuestion_returns question section) as [parent Hparent];
    try done.
  destruct (isComplexType (prop question "type")) eqn:Hcomplex.
  - assert (is_object_type (prop question "type")
            || strict_eq_str (prop question "type") "social_links_object" = true →
            Forall (λ entry, nullish entry.2 = false) (field_entries question))
      as Hnonnull.
    { intros Htype. rewrite Htype in Hfields. simpl in Hfields.
      apply forallb_Forall in Hfields. eapply Forall_impl; [exact Hfields|].
      intros entry. by rewrite negb_true_iff. }
    apply isComplexType_true in Hcomplex as [Htype|[Htype|[Htype|Htype]]].
    + destruct (object_children_exist question section parent)
        as (children & Hchildren & _); try done.
      { apply Hnonnull. by rewrite Htype. }
      eexists. by eapply object_type_rows.
    + destruct (social_children_exist question section parent)
        as (children & Hchildren & _); try done.
      { apply Hnonnull. rewrite Htype. by rewrite orb_true_r. }
      eexists. by eapply social_type_rows.
    + destruct (to_string_plain (js_or (prop question "max_items") (JNum 10)))
        as [max_items Hmax]; [by apply plain_js_or; [apply plain_prop|]|].
      destruct (parent_row_validation _ _ _ Hparent) as (_ & validation & _ & Hcell).
      eexists. by eapply text_array_rows.
    + rewrite Htype in Hupload. simpl in Hupload.
      destruct (file_types_part_exists (prop question "file_types"))
        as [types Htypes]; [by apply plain_prop | done |].
      destruct (max_size_part_exists (prop question "max_size"))
        as [size Hsize]; [by apply plain_prop|].
      eexists. by eapply file_upload_rows.
  - unfold question_rows. rewrite get_prop_Normal by done. simpl.
    rewrite Hcomplex, Hparent. by eexists.
Qed.

Lemma section_rows_returns section :
  plain section = true → section_shape section = true →
  ∃ rows, section_rows section = Normal rows.
Proof.
  intros Hplain Hshape. unfold section_shape in Hshape.
  destruct (prop section "questions") as [| | | | |r questions|] eqn:Hquestions;
    try done.
  assert (nullish section = false) as Hsection.
  { apply (nullish_prop _ "questions"). by rewrite Hquestions. }
  assert (forallb plain questions = true) as Hplains.
  { pose proof (plain_prop section "questions" Hplain) as H.
    by rewrite Hquestions in H. }
  unfold section_rows. rewrite get_prop_Normal, Hquestions by done. simpl.
  destruct (traverse_returns (question_rows section) questions) as [rowss ->];
    [|by eexists].
  apply forallb_Forall in Hshape, Hplains.
  apply Forall_forall. intros question Hin.
  rewrite Forall_forall in Hshape, Hplains.
  apply question_rows_returns; auto.
Qed.

Lemma plain_items r items : plain (JArr r items) = true → forallb plain items = true.
Proof. done. Qed.

Lemma flattenIntakeJSON_returns intakeData :
  document_shape intakeData = true →
  ∃ parsedData, flattenIntakeJSON intakeData = Normal parsedData.
Proof.
  unfold document_shape. intros [Hplain Hshape]%andb_prop.
  destruct (prop (prop intakeData "conversation_flow") "sections")
    as [| | | | |r sections|] eqn:Hsections; try done.
  assert (nullish (prop intakeData "conversation_flow") = false) as Hflow.
  { apply (nullish_prop _ "sections"). by rewrite Hsections. }
  pose proof (nullish_prop _ _ Hflow) as Hdata.
  assert (forallb plain sections = true) as Hplains.
  { apply (plain_items r). rewrite <- Hsections. by do 2 apply plain_prop. }
  unfold flattenIntakeJSON. rewrite get_prop_Normal by done. simpl.
  rewrite get_prop_Normal, Hsections by done. simpl.
  destruct (traverse_returns section_rows sections) as [rowss ->]; [|by eexists].
  apply forallb_Forall in Hshape, Hplains.
  apply Forall_forall. intros section Hin.
  rewrite Forall_forall in Hshape, Hplains.
  apply section_rows_returns; auto.
Qed.

(** C2, as stated, fails for a section without [questions]: the document
    passes the root-level check, and [section.questions.forEach] throws. *)
Lemma flattenIntakeJSON_section_without_questions :
  structural_check document_without_questions = true
  ∧ flattenIntakeJSON document_without_questions
    = Throw (TypeError "Cannot read properties of undefined (reading 'forEach')").
Proof. split; reflexivity. Qed.

(** C2 (amended): [flattenIntakeJSON] completes on every document of the
    shape [document_shape]: no object in it has an own property named
    [toString]; [conversation_flow.sections] is an array; every section
    has an array [questions]; no question is [null]; an [options] array
    that starts with an object, an array or [null] holds no [null]; no
    entry of the [fields] of a question that expands them is [null]; and
    the [file_types] of a [file_upload] question is falsy or an array.
    Such a document passes the part of the root-level check that
    concerns [conversation_flow.sections]. *)
Theorem flattenIntakeJSON_completes intakeData :
  document_shape intakeData = true →
  truthy (prop intakeData "conversation_flow") = true
  ∧ truthy (prop (prop intakeData "conversation_flow") "sections") = true
  ∧ ∃ parsedData,
      flattenIntakeJSON intakeData = Normal parsedData
      ∧ sectionCount parsedData
        = prop (prop (prop intakeData "conversation_flow") "sections") "length".
Proof.
  intros Hshape.
  destruct (flattenIntakeJSON_returns _ Hshape) as [parsedData Hparsed].
  unfold document_shape in Hshape. apply andb_prop in Hshape as [_ Hshape].
  destruct (prop (prop intakeData "conversation_flow") "sections")
    as [| | | | |r sections|] eqn:Hsections; try done.
  split.
  { by destruct (prop intakeData "conversation_flow"). }
  split; [done|].
  exists parsedData. split; [done|].
  unfold flattenIntakeJSON in Hparsed.
  apply bind_Normal in Hparsed as (flow & Hflow & Hparsed).
  pose proof (get_prop_returns _ _ _ Hflow) as Hdata.
  rewrite get_prop_Normal in Hflow by done. injection Hflow as <-.
  apply bind_Normal in Hparsed as (sections' & Hsections' & Hparsed).
  pose proof (get_prop_returns _ _ _ Hsections') as Hflow.
  rewrite get_prop_Normal in Hsections' by done. injection Hsections' as <-.
  apply bind_Normal in Hparsed as (items & _ & Hparsed).
  apply bind_Normal in Hparsed as (rowss & _ & [= <-]).
  simpl. by rewrite Hsections.
Qed.

Lemma flattenIntakeJSON_completes_witness :
  truthy (prop scenario_document "conversation_flow") = true
  ∧ truthy (prop (prop scenario_document "conversation_flow") "sections") = true
  ∧ ∃ parsedData,
      flattenIntakeJSON scenario_document = Normal parsedData
      ∧ sectionCount parsedData
        = prop (prop (prop scenario_document "conversation_flow") "sections") "length".
Proof. apply (flattenIntakeJSON_completes scenario_document). reflexivity. Defined.

(** * Further properties *)

(** ** The formatters on the shapes of the data model *)

Lemma array_join_strings sep (items : list JValue) (texts : list string) :
  Forall2 (λ item text, item = JStr text ∨ (item = JNull ∧ text = "")) items texts →
  array_join sep items = Normal (join sep texts).
Proof.
  intros H. unfold array_join.
  assert (traverse join_element items = Normal texts) as ->; [|done].
  apply traverse_Normal. eapply Forall2_impl; [exact H|].
  intros item text [->|[-> ->]]; done.
Qed.

(** X1 (formatMapsTo, formatExamples): a sequence of strings is joined
    with [", "] by [formatMapsTo] and with [" | "] by [formatExamples], a
    [null] among them printing as nothing; a single string comes back
    unchanged from both. *)
Theorem format_string_sequences :
  (∀ r items texts,
     Forall2 (λ item text, item = JStr text ∨ (item = JNull ∧ text = "")) items texts →
     formatMapsTo (JArr r items) = Normal (join ", " texts)
     ∧ formatExamples (JArr r items) = Normal (join " | " texts))
  ∧ (∀ s, formatMapsTo (JStr s) = Normal s ∧ formatExamples (JStr s) = Normal s).
Proof.
  split.
  - intros r items texts H. unfold formatMapsTo, formatExamples. simpl.
    by rewrite !(array_join_strings _ items texts).
  - intros s. unfold formatMapsTo, formatExamples. simpl.
    destruct (String.eqb s "") eqn:Hs; simpl; [|done].
    by apply String.eqb_eq in Hs as ->.
Qed.

Lemma format_string_sequences_witness :
  formatMapsTo (JArr 0 [JStr "contact.email"; JNull; JStr "crm.email"])
  = Normal "contact.email, , crm.email"
  ∧ formatExamples (JArr 0 [JStr "contact.email"; JNull; JStr "crm.email"])
    = Normal "contact.email |  | crm.email".
Proof.
  apply (proj1 format_string_sequences 0
           [JStr "contact.email"; JNull; JStr "crm.email"]
           ["contact.email"; ""; "crm.email"]).
  constructor; [by left|]. constructor; [by right|]. constructor; [by left|].
  constructor.
Defined.

(** X2 (formatOptions): options that start with a string are joined with
    [" | "]; options that start with an object print, for each option,
    [value], or [label] when [value] is falsy, joined with [" | "]; every
    other shape (an empty array, an array that starts with a number or a
    boolean, anything that is not an array) gives the empty string. *)
Theorem formatOptions_shapes :
  (∀ r s items texts,
     Forall2 (λ item text, item = JStr text ∨ (item = JNull ∧ text = ""))
       items texts →
     formatOptions (JArr r (JStr s :: items)) = Normal (join " | " (s :: texts)))
  ∧ (∀ r items texts,
       typeof (first_item (JArr r items)) = "object" →
       Forall2 (λ opt text,
                  nullish opt = false
                  ∧ join_element (js_or (prop opt "value") (prop opt "label"))
                    = Normal text) items texts →
       formatOptions (JArr r items) = Normal (join " | " texts))
  ∧ (∀ options,
       isArray options = false
       ∨ (typeof (first_item options) ≠ "string"
          ∧ typeof (first_item options) ≠ "object") →
       formatOptions options = Normal "").
Proof.
  split; [|split].
  - intros r s items texts H. unfold formatOptions. simpl.
    apply (array_join_strings " | " (JStr s :: items) (s :: texts)).
    constructor; [by left | done].
  - intros r items texts Hfirst H. unfold formatOptions.
    cbn [truthy negb]. rewrite Hfirst. simpl (String.eqb _ _).
    assert (∃ picked,
              traverse (λ opt,
                 value ← get_prop opt "value";
                 if truthy value then Normal value else get_prop opt "label") items
              = Normal picked
              ∧ traverse join_element picked = Normal texts)
      as (picked & -> & Hpicked).
    { clear Hfirst. induction H as [|opt text items texts [Hopt Htext] _ IH]; simpl.
      - by exists [].
      - destruct IH as (picked & -> & Hpicked).
        rewrite !(get_prop_Normal opt) by done. simpl.
        exists (js_or (prop opt "value") (prop opt "label") :: picked).
        unfold js_or in *. destruct (truthy (prop opt "value")); simpl;
          rewrite Htext; simpl; rewrite Hpicked; done. }
    simpl. unfold array_join. by rewrite Hpicked.
  - intros options [Harr|[Hs Ho]]; unfold formatOptions.
    + destruct (truthy options); [|done]. by destruct options.
    + destruct (truthy options); [|done]. destruct options; try done.
      destruct (String.eqb_spec (typeof (first_item (JArr ref items))) "string");
        [done|].
      destruct (String.eqb_spec (typeof (first_item (JArr ref items))) "object");
        done.
Qed.

Lemma formatOptions_shapes_witness :
  formatOptions (JArr 0 [ JObj 1 [("value", JStr "s"); ("label", JStr "Small")];
                          JObj 2 [("label", JStr "Large")] ])
  = Normal "s | Large"
  ∧ formatOptions (JArr 0 [JNum 1; JNum 2]) = Normal "".
Proof.
  split.
  - apply (proj1 (proj2 formatOptions_shapes) 0
             [ JObj 1 [("value", JStr "s"); ("label", JStr "Small")];
               JObj 2 [("label", JStr "Large")] ] ["s"; "Large"]).
    + reflexivity.
    + repeat constructor.
  - apply (proj2 (proj2 formatOptions_shapes)). right. split; discriminate.
Defined.

Lemma indexed_from_fmap {A B} (f : A → B) i (xs : list A) :
  indexed_from i (f <$> xs) = (λ kv, (kv.1, f kv.2)) <$> indexed_from i xs.
Proof.
  revert i. induction xs as [|x xs IH]; intros i; simpl; [done|]. by rewrite IH.
Qed.

(** X3 (formatValidation): validation rules given as an array are an
    object to [typeof], so they print with their indices as keys,
    ["0: a, 1: b"]; the rule [true] prints as the empty string. *)
Theorem formatValidation_array_and_boolean :
  (∀ r rules,
     formatValidation (JArr r (JStr <$> rules))
     = Normal (join ", " ((λ kv, kv.1 +:+ ": " +:+ kv.2) <$> indexed_from 0 rules)))
  ∧ (∀ b, formatValidation (JBool b) = Normal "").
Proof.
  split; [|by intros []].
  intros r rules. unfold formatValidation. simpl.
  assert (traverse (λ '(key, value),
             s ← to_string value; Normal (key +:+ ": " +:+ s))
            (indexed_from 0 (JStr <$> rules))
          = Normal ((λ kv, kv.1 +:+ ": " +:+ kv.2) <$> indexed_from 0 rules))
    as ->; [|done].
  apply traverse_Normal. rewrite indexed_from_fmap.
  apply Forall2_fmap. apply Forall_Forall2_diag, Forall_forall.
  by intros [k v] _.
Qed.

(** ** The rows of a question *)

Lemma processComplexType_object question section :
  is_object_type (prop question "type") = true →
  processComplexType question section
  = (parent ← processStandardQuestion question section;
     children ← traverse (object_field_row question section) (field_entries question);
     Normal (parent :: children)).
Proof.
  intros Htype. unfold processComplexType.
  destruct (processStandardQuestion question section) as [parent|e]; [|done].
  assert (strict_eq_str (prop question "type") "social_links_object" = false
          ∧ strict_eq_str (prop question "type") "text_array" = false
          ∧ strict_eq_str (prop question "type") "file_upload" = false)
    as (Hsocial & Harray & Hupload).
  { unfold is_object_type in Htype.
    apply orb_true_iff in Htype as [->%strict_eq_str_true| ->%strict_eq_str_true];
      done. }
  unfold is_object_type in Htype. cbn [mbind completion_bind].
  rewrite Htype, Hsocial, Harray, Hupload.
  destruct (truthy (prop question "fields")) eqn:Hf.
  - rewrite object_entries_fields by done. cbn [mbind completion_bind andb].
    by destruct (traverse _ _).
  - by rewrite field_entries_falsy.
Qed.

Lemma processComplexType_social question section :
  prop question "type" = JStr "social_links_object" →
  processComplexType question section
  = (parent ← processStandardQuestion question section;
     children ← traverse (social_link_row question section) (field_entries question);
     Normal (parent :: children)).
Proof.
  intros Htype. unfold processComplexType.
  destruct (processStandardQuestion question section) as [parent|e]; [|done].
  rewrite Htype.
  cbn [mbind completion_bind strict_eq_str]. simpl (String.eqb _ _).
  cbn [orb andb mbind completion_bind].
  destruct (truthy (prop question "fields")) eqn:Hf.
  - rewrite object_entries_fields by done. cbn [mbind completion_bind].
    by destruct (traverse _ _).
  - by rewrite field_entries_falsy.
Qed.

Lemma object_field_row_length question section entry row :
  object_field_row question section entry = Normal row → length row = 12.
Proof.
  destruct entry as [fieldName fieldConfig]. unfold object_field_row. intros H.
  apply bind_Normal in H as (? & _ & H). apply bind_Normal in H as (? & _ & H).
  apply bind_Normal in H as (? & _ & H). apply bind_Normal in H as (? & _ & H).
  by apply bind_Normal in H as (? & _ & [= <-]).
Qed.

Lemma social_link_row_length question section entry row :
  social_link_row question section entry = Normal row → length row = 12.
Proof.
  destruct entry as [platform config]. unfold social_link_row. intros H.
  apply bind_Normal in H as (? & _ & H). apply bind_Normal in H as (? & _ & H).
  apply bind_Normal in H as (? & _ & H).
  by apply bind_Normal in H as (? & _ & [= <-]).
Qed.

Lemma traverse_lengths {A} (f : A → Completion Row) (xs : list A) (rows : list Row) :
  (∀ x row, f x = Normal row → length row = 12) →
  traverse f xs = Normal rows →
  length rows = length xs ∧ Forall (λ row, length row = 12) rows.
Proof.
  intros Hf H. apply traverse_Normal in H. split.
  - symmetry. by eapply Forall2_length.
  - induction H as [|x row xs rows Hx _ IH]; constructor; eauto.
Qed.

(** What a question adds when it adds anything: as many rows as
    [row_contribution] says, each of twelve cells. *)
Lemma question_rows_shape section question rows :
  question_rows section question = Normal rows →
  length rows = row_contribution question
  ∧ Forall (λ row, length row = 12) rows.
Proof.
  unfold question_rows, row_contribution, expands_fields. intros H.
  apply bind_Normal in H as (type & Htype & H).
  pose proof (get_prop_returns _ _ _ Htype) as Hq.
  rewrite get_prop_Normal in Htype by done. injection Htype as <-.
  destruct (isComplexType (prop question "type")) eqn:Hcomplex.
  - apply isComplexType_true in Hcomplex as [Htype|[Htype|[Htype|Htype]]].
    + rewrite processComplexType_object in H by done. rewrite Htype. simpl.
      apply bind_Normal in H as (parent & Hparent & H).
      apply bind_Normal in H as (children & Hchildren & [= <-]).
      destruct (parent_row_validation _ _ _ Hparent) as [Hlen _].
      destruct (traverse_lengths _ _ _ (object_field_row_length question section)
                  Hchildren) as [Hn Hall].
      split; [simpl; by rewrite Hn | by constructor].
    + rewrite processComplexType_social in H by done. rewrite Htype. simpl.
      apply bind_Normal in H as (parent & Hparent & H).
      apply bind_Normal in H as (children & Hchildren & [= <-]).
      destruct (parent_row_validation _ _ _ Hparent) as [Hlen _].
      destruct (traverse_lengths _ _ _ (social_link_row_length question section)
                  Hchildren) as [Hn Hall].
      split; [simpl; by rewrite Hn | by constructor].
    + rewrite Htype. simpl. unfold processComplexType in H. rewrite Htype in H.
      apply bind_Normal in H as (parent & Hparent & H).
      destruct (parent_row_validation _ _ _ Hparent) as [Hlen _].
      simpl in H.
      apply bind_Normal in H as (rows' & H & [= <-]).
      apply bind_Normal in H as (max_items & _ & H).
      apply bind_Normal in H as (current & _ & [= <-]).
      simpl. split; [done|]. constructor; [|done]. etrans; [apply length_insert | done].
    + rewrite Htype. simpl. unfold processComplexType in H. rewrite Htype in H.
      apply bind_Normal in H as (parent & Hparent & H).
      destruct (parent_row_validation _ _ _ Hparent) as [Hlen _].
      simpl in H.
      apply bind_Normal in H as (rows' & H & [= <-]).
      apply bind_Normal in H as (types & _ & H).
      apply bind_Normal in H as (size & _ & [= <-]).
      simpl. split; [done|]. constructor; [|done]. etrans; [apply length_insert | done].
  - apply bind_Normal in H as (row & Hrow & [= <-]).
    destruct (parent_row_validation _ _ _ Hrow) as [Hlen _].
    assert (expands_fields (prop question "type") = false) as Hexp.
    { unfold isComplexType, complexTypes in Hcomplex. cbn [existsb] in Hcomplex.
      unfold expands_fields, is_object_type.
      repeat (apply orb_false_iff in Hcomplex as [? Hcomplex]).
      by repeat (apply orb_false_iff; split). }
    unfold expands_fields in Hexp. rewrite Hexp.
    split; [done | by constructor].
Qed.

Lemma forEach_items_Normal callee v items :
  forEach_items callee v = Normal items → ∃ r, v = JArr r items.
Proof. destruct v; try done. intros [= <-]. by eexists. Qed.

Lemma concat_shape {A} (count : A → nat) (xs : list A) (rowss : list (list Row)) :
  Forall2 (λ x qrows, length qrows = count x
                      ∧ Forall (λ row, length row = 12) qrows) xs rowss →
  length (concat rowss) = sum_list (count <$> xs)
  ∧ Forall (λ row, length row = 12) (concat rowss).
Proof.
  induction 1 as [|x qrows xs rowss [Hn Hrows] _ [IHn IHrows]]; csimpl.
  - by split.
  - rewrite length_app, IHn. split; [f_equal; exact Hn|]. by apply Forall_app.
Qed.

Lemma section_rows_shape section rows :
  section_rows section = Normal rows →
  length rows = sum_list (row_contribution <$> questions_of section)
  ∧ Forall (λ row, length row = 12) rows.
Proof.
  unfold section_rows, questions_of. intros H.
  apply bind_Normal in H as (questions & Hquestions & H).
  pose proof (get_prop_returns _ _ _ Hquestions) as Hs.
  rewrite get_prop_Normal in Hquestions by done. injection Hquestions as <-.
  apply bind_Normal in H as (items & Hitems & H).
  apply forEach_items_Normal in Hitems as [r ->].
  apply bind_Normal in H as (rowss & Hrowss & [= <-]).
  apply concat_shape. apply traverse_Normal in Hrowss.
  eapply Forall2_impl; [exact Hrowss|].
  intros question rows' Hrows. by apply question_rows_shape in Hrows.
Qed.

(** The sections that a completed flattening visited. *)
Lemma flattenIntakeJSON_sections intakeData parsedData :
  flattenIntakeJSON intakeData = Normal parsedData →
  ∃ r rowss,
    prop (prop intakeData "conversation_flow") "sections"
    = JArr r (sections_of intakeData)
    ∧ traverse section_rows (sections_of intakeData) = Normal rowss
    ∧ rows parsedData = concat rowss
    ∧ sectionCount parsedData = JNum (Z.of_nat (length (sections_of intakeData))).
Proof.
  unfold flattenIntakeJSON, sections_of. intros H.
  apply bind_Normal in H as (flow & Hflow & H).
  pose proof (get_prop_returns _ _ _ Hflow) as Hdata.
  rewrite get_prop_Normal in Hflow by done. injection Hflow as <-.
  apply bind_Normal in H as (sections & Hsections & H).
  pose proof (get_prop_returns _ _ _ Hsections) as Hflow.
  rewrite get_prop_Normal in Hsections by done. injection Hsections as <-.
  apply bind_Normal in H as (items & Hitems & H).
  apply forEach_items_Normal in Hitems as [r Hitems]. rewrite Hitems in *.
  apply bind_Normal in H as (rowss & Hrowss & [= <-]).
  by exists r, rowss.
Qed.

Lemma flattenIntakeJSON_shape intakeData parsedData :
  flattenIntakeJSON intakeData = Normal parsedData →
  length (rows parsedData) = expected_rows intakeData
  ∧ Forall (λ row, length row = 12) (rows parsedData).
Proof.
  intros (r & rowss & _ & Hrowss & -> & _)%flattenIntakeJSON_sections.
  unfold expected_rows. apply concat_shape. apply traverse_Normal in Hrowss.
  eapply Forall2_impl; [exact Hrowss|].
  intros section rows' Hrows. by apply section_rows_shape in Hrows.
Qed.

(** X4 (flattenIntakeJSON): every row of a completed flattening has
    exactly twelve cells, one for each header of the sheet. *)
Theorem flattenIntakeJSON_row_width intakeData parsedData :
  flattenIntakeJSON intakeData = Normal parsedData →
  Forall (λ row, length row = length headers) (rows parsedData).
Proof. intros H. by apply flattenIntakeJSON_shape in H as [_ H]. Qed.

Lemma flattenIntakeJSON_row_width_witness :
  Forall (λ row, length row = length headers) (rows standard_parsed).
Proof. apply (flattenIntakeJSON_row_width standard_document). reflexivity. Defined.

(** X5 (flattenIntakeJSON): a completed flattening has one row for each
    question and one more for each entry of the [fields] of a
    [service_object], [testimonial_object] or [social_links_object]
    question, and its [sectionCount] is the number of sections; when no
    question has one of these three types, the rows are as many as the
    questions. *)
Theorem flattenIntakeJSON_row_count intakeData parsedData :
  flattenIntakeJSON intakeData = Normal parsedData →
  length (rows parsedData) = expected_rows intakeData
  ∧ sectionCount parsedData = JNum (Z.of_nat (length (sections_of intakeData)))
  ∧ ((∀ section question,
        section ∈ sections_of intakeData → question ∈ questions_of section →
        expands_fields (prop question "type") = false) →
     length (rows parsedData)
     = sum_list ((λ section, length (questions_of section))
                   <$> sections_of intakeData)).
Proof.
  intros H. pose proof (flattenIntakeJSON_shape _ _ H) as [Hcount _].
  apply flattenIntakeJSON_sections in H as (r & rowss & _ & _ & _ & Hsections).
  split; [done|]. split; [done|].
  intros Hstandard. rewrite Hcount. unfold expected_rows. f_equal.
  apply list_fmap_ext. intros i section Hsection%list_elem_of_lookup_2.
  rewrite (sum_list_fmap_same 1); [lia|].
  apply Forall_forall. intros question Hquestion.
  unfold row_contribution. by rewrite (Hstandard section question).
Qed.

Lemma flattenIntakeJSON_row_count_witness :
  length (rows standard_parsed) = expected_rows standard_document
  ∧ sectionCount standard_parsed
    = JNum (Z.of_nat (length (sections_of standard_document)))
  ∧ ((∀ section question,
        section ∈ sections_of standard_document → question ∈ questions_of section →
        expands_fields (prop question "type") = false) →
     length (rows standard_parsed)
     = sum_list ((λ section, length (questions_of section))
                   <$> sections_of standard_document)).
Proof. apply (flattenIntakeJSON_row_count standard_document). reflexivity. Defined.

(** ** The identity guard and the naming resolver, further *)

Lemma checkDuplicateIds_occurrences rows id :
  occurrences id (checkDuplicateIds rows)
  = if bool_decide (2 ≤ occurrences id (question_ids rows)) then 1 else 0.
Proof.
  rewrite checkDuplicateIds_scan, new_Set_spec.
  destruct (scan_ids_spec (question_ids rows) id) as [_ Hdup].
  destruct (set_has _ id); case_bool_decide as H2; try done.
  - destruct H2. by apply Hdup.
  - by apply Hdup in H2.
Qed.

(** X6 (checkDuplicateIds): the result is empty, so that the
    orchestrator goes on, exactly when no identifier occurs twice among
    the rows. *)
Theorem checkDuplicateIds_empty rows :
  checkDuplicateIds rows = [] ↔ ∀ id, occurrences id (question_ids rows) ≤ 1.
Proof.
  split.
  - intros Hempty id. pose proof (checkDuplicateIds_occurrences rows id) as H.
    rewrite Hempty, occurrences_nil in H. case_bool_decide; [done | lia].
  - intros Hunique. destruct (checkDuplicateIds rows) as [|id duplicates] eqn:Hd;
      [done|].
    pose proof (checkDuplicateIds_occurrences rows id) as H.
    rewrite Hd, occurrences_cons, same_value_zero_refl in H.
    specialize (Hunique id). case_bool_decide; lia.
Qed.

Lemma scan_ids_snoc ids id :
  scan_ids (ids ++ [id])
  = (set_add (scan_ids ids).1 id,
     if set_has (scan_ids ids).1 id then (scan_ids ids).2 ++ [id]
     else (scan_ids ids).2).
Proof. unfold scan_ids. rewrite foldl_app. simpl. by destruct (foldl _ _ ids). Qed.

(** X7 (checkDuplicateIds): duplicates are reported in the order in
    which they are first found again: one more row adds its identifier at
    the end of the result when an earlier row has the identifier and the
    result does not have it yet, and changes nothing otherwise. *)
Theorem checkDuplicateIds_snoc rows row :
  let id := default JUndefined (row !! col_question_id) in
  checkDuplicateIds (rows ++ [row])
  = if set_has (question_ids rows) id && negb (set_has (checkDuplicateIds rows) id)
    then checkDuplicateIds rows ++ [id]
    else checkDuplicateIds rows.
Proof.
  intros id. rewrite !checkDuplicateIds_scan. unfold question_ids.
  rewrite fmap_app. simpl. fold (question_ids rows). fold id.
  rewrite scan_ids_snoc. simpl.
  assert (set_has (scan_ids (question_ids rows)).1 id
          = set_has (question_ids rows) id) as ->.
  { destruct (scan_ids_spec (question_ids rows) id) as [Hseen _].
    pose proof (set_has_occurrences (question_ids rows) id) as Hids.
    destruct (set_has (scan_ids _).1 id), (set_has (question_ids rows) id);
      try done.
    - symmetry. apply Hids, Hseen. done.
    - apply Hseen, Hids. done. }
  destruct (set_has (question_ids rows) id); simpl; [|done].
  unfold new_Set. rewrite foldl_app. simpl. unfold set_add at 1.
  by destruct (set_has _ id).
Qed.

Lemma prefix_append s t : String.prefix s (s +:+ t) = true.
Proof.
  induction s as [|a s IH]; simpl; [by destruct t|].
  destruct (Ascii.ascii_dec a a); done.
Qed.

Lemma getVersionedSheetName_fresh_parts :
  (∀ ss templateName forceNew text,
     to_string templateName = Normal text →
     ∃ name, getVersionedSheetName ss templateName forceNew = Normal name)
  ∧ (∀ ss templateName forceNew name,
       getVersionedSheetName ss templateName forceNew = Normal name →
       getSheetByName ss name = None ∧ String.prefix "Intake_" name = true).
Proof.
  split.
  - intros ss templateName forceNew text Htext. unfold getVersionedSheetName.
    rewrite Htext. cbn -[next_version].
    destruct (next_version_enough_fuel ss ("Intake_" +:+ text) 2) as [k ->].
    destruct (_ && _); by eexists.
  - intros ss templateName forceNew name. unfold getVersionedSheetName.
    intros (text & Htext & H)%bind_Normal.
    destruct (negb forceNew
              && negb (bool_decide (is_Some (getSheetByName ss ("Intake_" +:+ text)))))
      eqn:Hbase.
    + injection H as <-. split; [|apply prefix_append].
      apply andb_prop in Hbase as [_ Hbase%negb_true_iff%bool_decide_eq_false].
      destruct (getSheetByName ss ("Intake_" +:+ text)); [|done].
      destruct Hbase. by eexists.
    + destruct (next_version ss ("Intake_" +:+ text) (S (length (sheets ss))) 2)
        as [k|] eqn:Hk; [|done].
      injection H as <-. split.
      2:{ change (String.prefix "Intake_"
                    ("Intake_" +:+ (text +:+ "_v" +:+ number_to_string k)) = true).
          apply prefix_append. }
      by apply next_version_Some in Hk as (_ & Hfree & _).
Qed.

(** X8 (getVersionedSheetName): for every template name that prints,
    the resolver returns a name; the name it returns starts with
    [Intake_] and is the name of no sheet of the spreadsheet, so the sheet
    built under it replaces none. *)
Theorem getVersionedSheetName_fresh :
  (∀ ss templateName forceNew text,
     to_string templateName = Normal text →
     ∃ name, getVersionedSheetName ss templateName forceNew = Normal name)
  ∧ (∀ ss templateName forceNew name,
       getVersionedSheetName ss templateName forceNew = Normal name →
       getSheetByName ss name = None ∧ String.prefix "Intake_" name = true).
Proof. exact getVersionedSheetName_fresh_parts. Qed.

Lemma getVersionedSheetName_fresh_witness :
  getSheetByName spreadsheet_X "Intake_X_v4" = None
  ∧ String.prefix "Intake_" "Intake_X_v4" = true.
Proof.
  apply (proj2 getVersionedSheetName_fresh spreadsheet_X (JStr "X") false).
  reflexivity.
Defined.

(** ** The sheet that an import writes *)

Lemma host_bind_step {A B} (m : Host A) (f : A → Host B) ss a ss' :
  m ss = (Normal a, ss') → (m ≫= f) ss = f a ss'.
Proof. intros H. unfold mbind, host_bind. by rewrite H. Qed.

Lemma host_bind_throw {A B} (m : Host A) (f : A → Host B) ss e ss' :
  m ss = (Throw e, ss') → (m ≫= f) ss = (Throw e, ss').
Proof. intros H. unfold mbind, host_bind. by rewrite H. Qed.

Lemma getSheetByName_None ss name :
  getSheetByName ss name = None ↔ Forall (λ sh, sheet_name sh ≠ name) (sheets ss).
Proof.
  unfold getSheetByName. induction (sheets ss) as [|sh l IH]; simpl.
  - split; [constructor | done].
  - destruct (String.eqb_spec (sheet_name sh) name) as [Heq|Hne].
    + split; [done|]. intros H. by inversion H.
    + rewrite IH. split; [by constructor | intros H; by inversion H].
Qed.

(** Updating the sheet of a name touches the last sheet alone when it
    is the only one of that name. *)
Lemma update_sheet_last name f (l : list Sheet) sh :
  Forall (λ sh, sheet_name sh ≠ name) l → sheet_name sh = name →
  update_sheet name f {| sheets := l ++ [sh] |} = {| sheets := l ++ [f sh] |}.
Proof.
  intros Hl Hsh. unfold update_sheet. simpl. f_equal.
  rewrite fmap_app. simpl. rewrite <- Hsh, String.eqb_refl. f_equal.
  induction Hl as [|sh' l Hne _ IH]; [done|]. csimpl.
  rewrite IH. f_equal. rewrite Hsh. by destruct (String.eqb_spec (sheet_name sh') name).
Qed.

Lemma update_row_next f (grid : list (list JValue)) :
  update_row (S (length grid)) f grid = grid ++ [f []].
Proof.
  unfold update_row. cbn [pred]. rewrite lookup_ge_None_2 by done.
  replace (S (length grid) - length grid) with 1 by lia. simpl.
  rewrite insert_app_r_alt by done. by rewrite Nat.sub_diag.
Qed.

Lemma update_row_at f (pre : list (list JValue)) row post :
  update_row (S (length pre)) f (pre ++ row :: post) = pre ++ f row :: post.
Proof.
  unfold update_row. cbn [pred].
  rewrite lookup_app_r by done. rewrite Nat.sub_diag. simpl.
  replace (S (length pre) - length (pre ++ row :: post)) with 0
    by (rewrite length_app; simpl; lia).
  simpl. rewrite app_nil_r. rewrite insert_app_r_alt by done.
  by rewrite Nat.sub_diag.
Qed.

Lemma set_row_next cells (grid : list (list JValue)) :
  set_row (S (length grid)) cells grid = grid ++ [cells].
Proof. unfold set_row. rewrite update_row_next. by rewrite drop_nil, app_nil_r. Qed.

Lemma set_rows_next block (grid : list (list JValue)) :
  set_rows (S (length grid)) block grid = grid ++ block.
Proof.
  revert grid. induction block as [|cells block IH]; intros grid; simpl.
  - by rewrite app_nil_r.
  - rewrite set_row_next.
    replace (S (S (length grid))) with (S (length (grid ++ [cells])))
      by (rewrite length_app; simpl; lia).
    by rewrite IH, <- app_assoc.
Qed.

Lemma setValues_rows sheet r n (block : list (list JValue)) :
  Forall (λ cells, length cells = n) block →
  setValues sheet r n block = modify (update_sheet sheet (with_grid (set_rows r block))).
Proof.
  intros Hblock. unfold setValues.
  assert (find (λ cells : list JValue, negb (length cells =? n)) block = None) as ->;
    [|done].
  induction Hblock as [|cells block Hcells _ IH]; [done|].
  simpl. by rewrite (proj2 (Nat.eqb_eq _ _) Hcells).
Qed.

Lemma insertCheckboxes_block c (pre block : list (list JValue)) :
  insertCheckboxes (S (length pre)) c (length block) (pre ++ block)
  = pre ++ (set_cell c (JBool false) <$> block).
Proof.
  revert pre. induction block as [|row block IH]; intros pre; csimpl; [done|].
  rewrite update_row_at.
  replace (pre ++ set_cell c (JBool false) row :: block)
    with ((pre ++ [set_cell c (JBool false) row]) ++ block)
    by (by rewrite <- app_assoc).
  replace (S (S (length pre)))
    with (S (length (pre ++ [set_cell c (JBool false) row])))
    by (rewrite length_app; simpl; lia).
  by rewrite IH, <- app_assoc.
Qed.

(** The sheet that [buildIntakeSheet] leaves under a new name, for rows
    as wide as the headers: two empty rows, the headers in row 3, the data
    from row 4 on with unchecked boxes in the required column, and no
    protection. *)
Lemma buildIntakeSheet_result sheetName parsedData ss :
  getSheetByName ss sheetName = None →
  Forall (λ row, length row = length headers) (rows parsedData) →
  buildIntakeSheet sheetName parsedData ss
  = (Normal sheetName,
     {| sheets := sheets ss ++ [ built_sheet sheetName parsedData ] |}).
Proof.
  intros Hfree Hwidth. unfold buildIntakeSheet, built_sheet, data_rows.
  erewrite host_bind_step by reflexivity. rewrite Hfree.
  apply getSheetByName_None in Hfree.
  erewrite host_bind_step by reflexivity.
  erewrite host_bind_step by reflexivity.
  unfold insertSheet. cbn [sheets].
  erewrite host_bind_step by reflexivity.
  rewrite update_sheet_last by done.
  unfold with_grid. cbn [sheet_name sheet_grid sheet_protections].
  change (set_rows 3 [JStr <$> headers] []) with [ []; []; JStr <$> headers ].
  unfold formatSheet. rewrite (setValues_rows _ _ _ _ Hwidth).
  destruct (rows parsedData) as [|row rows'] eqn:Hrows.
  - simpl. done.
  - rewrite !bool_decide_eq_true_2 by (simpl; lia).
    erewrite host_bind_step by reflexivity.
    rewrite update_sheet_last by done.
    unfold with_grid. cbn [sheet_name sheet_grid sheet_protections].
    rewrite (set_rows_next (row :: rows') [ []; []; JStr <$> headers ]).
    erewrite host_bind_step by reflexivity.
    rewrite update_sheet_last by done.
    unfold with_grid. cbn [sheet_name sheet_grid sheet_protections].
    by rewrite (insertCheckboxes_block 7 [ []; []; JStr <$> headers ] (row :: rows')).
Qed.

Lemma getSheetByName_last name (l : list Sheet) sh :
  Forall (λ sh, sheet_name sh ≠ name) l → sheet_name sh = name →
  getSheetByName {| sheets := l ++ [sh] |} name = Some sh.
Proof.
  intros Hl Hsh. unfold getSheetByName. cbn [sheets].
  induction Hl as [|sh' l Hne _ IH]; simpl.
  - by rewrite Hsh, String.eqb_refl.
  - by destruct (String.eqb_spec (sheet_name sh') name).
Qed.

Lemma getSheetByName_other name other (l : list Sheet) sh :
  sheet_name sh = name → other ≠ name →
  getSheetByName {| sheets := l ++ [sh] |} other
  = getSheetByName {| sheets := l |} other.
Proof.
  intros Hsh Hother. unfold getSheetByName. cbn [sheets].
  induction l as [|sh' l IH]; simpl.
  - destruct (String.eqb_spec (sheet_name sh) other); [congruence | done].
  - by destruct (String.eqb (sheet_name sh') other).
Qed.

(** X9 (buildIntakeSheet): when no sheet has the given name and every
    data row is as wide as the headers, the function returns the name and
    leaves under it a sheet without protection, whose rows 1 and 2 are
    empty, whose row 3 holds the twelve headers and which has one row more
    for each data row; the sheets of the other names are found as
    before. *)
Theorem buildIntakeSheet_adds_sheet sheetName parsedData ss :
  getSheetByName ss sheetName = None →
  Forall (λ row, length row = length headers) (rows parsedData) →
  let result := buildIntakeSheet sheetName parsedData ss in
  result.1 = Normal sheetName
  ∧ (∃ sheet,
       getSheetByName result.2 sheetName = Some sheet
       ∧ sheet_protections sheet = []
       ∧ sheet_grid sheet !! 0 = Some []
       ∧ sheet_grid sheet !! 1 = Some []
       ∧ sheet_grid sheet !! 2 = Some (JStr <$> headers)
       ∧ length (sheet_grid sheet) = 3 + length (rows parsedData))
  ∧ ∀ other, other ≠ sheetName →
             getSheetByName result.2 other = getSheetByName ss other.
Proof.
  intros Hfree Hwidth result. subst result.
  rewrite buildIntakeSheet_result by done.
  apply getSheetByName_None in Hfree.
  cbn [fst snd]. split; [done|]. split.
  - exists (built_sheet sheetName parsedData).
    split; [by apply getSheetByName_last|].
    unfold built_sheet, data_rows. cbn [sheet_protections sheet_grid].
    repeat split. simpl. by rewrite length_fmap.
  - intros other Hother. rewrite (getSheetByName_other sheetName) by done.
    by destruct ss.
Qed.

Lemma buildIntakeSheet_adds_sheet_witness :
  (buildIntakeSheet "Intake_X_v4" scenario_parsed spreadsheet_X).1
  = Normal "Intake_X_v4"
  ∧ (∃ sheet,
       getSheetByName (buildIntakeSheet "Intake_X_v4" scenario_parsed spreadsheet_X).2
         "Intake_X_v4" = Some sheet
       ∧ sheet_protections sheet = []
       ∧ sheet_grid sheet !! 0 = Some []
       ∧ sheet_grid sheet !! 1 = Some []
       ∧ sheet_grid sheet !! 2 = Some (JStr <$> headers)
       ∧ length (sheet_grid sheet) = 3 + length (rows scenario_parsed))
  ∧ ∀ other, other ≠ "Intake_X_v4" →
             getSheetByName
               (buildIntakeSheet "Intake_X_v4" scenario_parsed spreadsheet_X).2 other
             = getSheetByName spreadsheet_X other.
Proof.
  apply (buildIntakeSheet_adds_sheet "Intake_X_v4" scenario_parsed spreadsheet_X).
  - reflexivity.
  - repeat constructor.
Defined.

Lemma lockSchema_last name (l : list Sheet) grid protections :
  Forall (λ sh, sheet_name sh ≠ name) l →
  lockSchema name {| sheets := l ++ [mkSheet name grid protections] |}
  = (Normal (),
     {| sheets := l ++ [ mkSheet name (write_notice grid)
                           (protections ++ lock_protections) ] |}).
Proof.
  intros Hl.
  unfold lockSchema, addProtectionIndicator, protectCriticalColumns, setValue.
  erewrite host_bind_step by reflexivity. rewrite update_sheet_last by done.
  erewrite host_bind_step by reflexivity. rewrite !update_sheet_last by done.
  unfold modify. rewrite update_sheet_last by done.
  unfold protect, with_grid, lock_protections, write_notice. simpl.
  by rewrite <- !app_assoc.
Qed.

Lemma addMetadata_last now name intakeData (l : list Sheet) grid protections
    template version :
  Forall (λ sh, sheet_name sh ≠ name) l →
  to_string (prop intakeData "template_name") = Normal template →
  to_string (js_or (prop intakeData "template_version") (JStr "1.0")) = Normal version →
  addMetadata now name intakeData {| sheets := l ++ [mkSheet name grid protections] |}
  = (Normal (),
     {| sheets := l ++ [ mkSheet name (metadata_row template version now :: [] :: grid)
                           protections ] |}).
Proof.
  intros Hl Htemplate Hversion. unfold addMetadata.
  erewrite host_bind_step by reflexivity. rewrite update_sheet_last by done.
  erewrite host_bind_step by reflexivity. rewrite update_sheet_last by done.
  erewrite host_bind_step by (unfold lift; by rewrite Htemplate).
  erewrite host_bind_step by (unfold lift; by rewrite Hversion).
  unfold setValues, modify. cbn [find length Nat.eqb negb].
  rewrite update_sheet_last by done.
  unfold with_grid, metadata_row, set_rows, set_row, update_row. simpl.
  by rewrite app_nil_r.
Qed.

(** The import of a document that passes every check. *)
Lemma processIntakeJSON_valid JSON_parse now jsonContent forceNewVersion ss
    intakeData parsedData template version :
  JSON_parse jsonContent = Normal intakeData →
  structural_check intakeData = true →
  flattenIntakeJSON intakeData = Normal parsedData →
  checkDuplicateIds (rows parsedData) = [] →
  to_string (prop intakeData "template_name") = Normal template →
  to_string (js_or (prop intakeData "template_version") (JStr "1.0")) = Normal version →
  ∃ name,
    getVersionedSheetName ss (prop intakeData "template_name") forceNewVersion
    = Normal name
    ∧ getSheetByName ss name = None
    ∧ processIntakeJSON JSON_parse now jsonContent forceNewVersion ss
      = (ProcessFailure "rows is not defined",
         {| sheets :=
              sheets ss ++ [ imported_sheet name template version now parsedData ] |}).
Proof.
  intros Hparse Hcheck Hflatten Hduplicates Htemplate Hversion.
  destruct (proj1 getVersionedSheetName_fresh_parts ss (prop intakeData "template_name")
              forceNewVersion template Htemplate) as [name Hname].
  destruct (proj2 getVersionedSheetName_fresh_parts _ _ _ _ Hname) as [Hfree _].
  exists name. split; [done|]. split; [done|].
  unfold structural_check in Hcheck.
  apply andb_prop in Hcheck as [[Ht Hflow]%andb_prop Hsections].
  assert (nullish intakeData = false) as Hdata by (by destruct intakeData).
  unfold processIntakeJSON, processIntakeJSON_try.
  erewrite host_bind_step by (unfold lift; by rewrite Hparse).
  erewrite host_bind_step by (unfold lift; by rewrite get_prop_Normal).
  rewrite Ht, Hflow, Hsections. cbn [negb orb].
  erewrite host_bind_step by reflexivity.
  erewrite host_bind_step by reflexivity.
  erewrite host_bind_step by (by rewrite Hname).
  erewrite host_bind_step by (unfold lift; by rewrite Hflatten).
  rewrite Hduplicates. cbn [length]. rewrite bool_decide_eq_false_2 by lia.
  erewrite host_bind_step by reflexivity.
  erewrite host_bind_step
    by (apply buildIntakeSheet_result;
        [done | by apply flattenIntakeJSON_shape in Hflatten as [_ Hwidth]]).
  apply getSheetByName_None in Hfree.
  unfold built_sheet.
  erewrite host_bind_step by (by apply lockSchema_last).
  erewrite host_bind_step by (by eapply addMetadata_last).
  erewrite host_bind_throw by reflexivity.
  cbn [error_message]. unfold imported_sheet, write_notice, update_row, notice_row.
  simpl. by rewrite !app_nil_r.
Qed.

(** X10 (processIntakeJSON): when the document passes every check and
    its template name and version print, the import reports the failure
    [rows is not defined] and yet leaves a new sheet, under a name that no
    sheet had: it bears the five protections of [lockSchema]; the metadata
    are in row 1, rows 2 and 3 are empty, the lock notice is in row 4 and
    the headers are in row 5, with one row below for each data row.  The
    two rows that [addMetadata] inserts push down the notice written in
    row 2 and the headers written in row 3.  The sheets of the other
    names are found as before. *)
Theorem processIntakeJSON_leaves_sheet JSON_parse now jsonContent forceNewVersion ss
    intakeData parsedData template version :
  JSON_parse jsonContent = Normal intakeData →
  structural_check intakeData = true →
  flattenIntakeJSON intakeData = Normal parsedData →
  checkDuplicateIds (rows parsedData) = [] →
  to_string (prop intakeData "template_name") = Normal template →
  to_string (js_or (prop intakeData "template_version") (JStr "1.0")) = Normal version →
  let outcome := processIntakeJSON JSON_parse now jsonContent forceNewVersion ss in
  ∃ name sheet,
    getVersionedSheetName ss (prop intakeData "template_name") forceNewVersion
    = Normal name
    ∧ getSheetByName ss name = None
    ∧ outcome.1 = ProcessFailure "rows is not defined"
    ∧ getSheetByName outcome.2 name = Some sheet
    ∧ sheet_protections sheet = lock_protections
    ∧ sheet_grid sheet !! 0 = Some (metadata_row template version now)
    ∧ sheet_grid sheet !! 1 = Some []
    ∧ sheet_grid sheet !! 2 = Some []
    ∧ sheet_grid sheet !! 3 = Some notice_row
    ∧ sheet_grid sheet !! 4 = Some (JStr <$> headers)
    ∧ length (sheet_grid sheet) = 5 + length (rows parsedData)
    ∧ ∀ other, other ≠ name →
               getSheetByName outcome.2 other = getSheetByName ss other.
Proof.
  intros Hparse Hcheck Hflatten Hduplicates Htemplate Hversion outcome.
  destruct (processIntakeJSON_valid JSON_parse now jsonContent forceNewVersion ss
              _ _ _ _ Hparse Hcheck Hflatten Hduplicates Htemplate Hversion)
    as (name & Hname & Hfree & Houtcome).
  subst outcome. rewrite Houtcome. cbn [fst snd].
  exists name, (imported_sheet name template version now parsedData).
  split; [done|]. split; [done|]. split; [done|].
  split.
  { apply getSheetByName_last; [by apply getSheetByName_None | done]. }
  unfold imported_sheet, data_rows. cbn [sheet_protections sheet_grid].
  do 6 (split; [done|]). split.
  { cbn [app length]. by rewrite length_fmap. }
  intros other Hother. rewrite (getSheetByName_other name) by done.
  by destruct ss.
Qed.

Lemma processIntakeJSON_leaves_sheet_witness :
  let outcome := processIntakeJSON (λ _, Normal scenario_document) "2025-01-01" ""
                   false {| sheets := [] |} in
  ∃ name sheet,
    getVersionedSheetName {| sheets := [] |} (prop scenario_document "template_name")
      false = Normal name
    ∧ getSheetByName {| sheets := [] |} name = None
    ∧ outcome.1 = ProcessFailure "rows is not defined"
    ∧ getSheetByName outcome.2 name = Some sheet
    ∧ sheet_protections sheet = lock_protections
    ∧ sheet_grid sheet !! 0 = Some (metadata_row "Contact" "1.0" "2025-01-01")
    ∧ sheet_grid sheet !! 1 = Some []
    ∧ sheet_grid sheet !! 2 = Some []
    ∧ sheet_grid sheet !! 3 = Some notice_row
    ∧ sheet_grid sheet !! 4 = Some (JStr <$> headers)
    ∧ length (sheet_grid sheet) = 5 + length (rows scenario_parsed)
    ∧ ∀ other, other ≠ name →
               getSheetByName outcome.2 other
               = getSheetByName {| sheets := [] |} other.
Proof.
  apply (processIntakeJSON_leaves_sheet (λ _, Normal scenario_document) "2025-01-01"
           "" false {| sheets := [] |} scenario_document scenario_parsed
           "Contact" "1.0"); reflexivity.
Defined.

(** X11 (processIntakeJSON): the import writes nothing before every
    check has passed: either it leaves the spreadsheet as it was, or the
    text parsed, the document passed the root-level check, its flattening
    completed and no identifier was duplicated. *)
Theorem processIntakeJSON_writes_after_checks JSON_parse now jsonContent
    forceNewVersion ss :
  (processIntakeJSON JSON_parse now jsonContent forceNewVersion ss).2 = ss
  ∨ ∃ intakeData parsedData,
      JSON_parse jsonContent = Normal intakeData
      ∧ structural_check intakeData = true
      ∧ flattenIntakeJSON intakeData = Normal parsedData
      ∧ checkDuplicateIds (rows parsedData) = [].
Proof.
  unfold processIntakeJSON, processIntakeJSON_try.
  destruct (JSON_parse jsonContent) as [intakeData|e] eqn:Hparse.
  2:{ left. by erewrite host_bind_throw by reflexivity. }
  erewrite host_bind_step by reflexivity.
  destruct (nullish intakeData) eqn:Hdata.
  { left. unfold get_prop. rewrite Hdata.
    by erewrite host_bind_throw by reflexivity. }
  rewrite get_prop_Normal by done. erewrite host_bind_step by reflexivity.
  destruct (truthy (prop intakeData "template_name")) eqn:Ht; cbn [negb].
  2:{ left. by erewrite host_bind_throw by reflexivity. }
  erewrite host_bind_step by reflexivity.
  destruct (negb (truthy (prop intakeData "conversation_flow"))
            || negb (truthy (prop (prop intakeData "conversation_flow") "sections")))
    eqn:Hflow.
  { left. by erewrite host_bind_throw by reflexivity. }
  erewrite host_bind_step by reflexivity.
  destruct (getVersionedSheetName ss (prop intakeData "template_name") forceNewVersion)
    as [name|e] eqn:Hname.
  2:{ left. by erewrite host_bind_throw by (by rewrite Hname). }
  erewrite host_bind_step by (by rewrite Hname).
  destruct (flattenIntakeJSON intakeData) as [parsedData|e] eqn:Hflatten.
  2:{ left. by erewrite host_bind_throw by reflexivity. }
  erewrite host_bind_step by reflexivity.
  destruct (checkDuplicateIds (rows parsedData)) as [|id duplicates] eqn:Hduplicates.
  - right. exists intakeData, parsedData. repeat split; try done.
    unfold structural_check. rewrite Ht. simpl.
    apply orb_false_iff in Hflow as [H1%negb_false_iff H2%negb_false_iff].
    by rewrite H1, H2.
  - left. rewrite bool_decide_eq_true_2 by (simpl; lia).
    destruct (array_join ", " (id :: duplicates)) as [joined|e] eqn:Hjoined.
    + erewrite (host_bind_throw (_ ≫= _)); [done|].
      by erewrite host_bind_step by reflexivity.
    + erewrite (host_bind_throw (_ ≫= _)); [done|].
      by erewrite host_bind_throw by reflexivity.
Qed.

(** X12 (processIntakeJSON): the failures before the sheet is built
    carry these messages and leave the spreadsheet as it was: the message
    of the parse error; [Missing template_name in JSON] for a document
    whose [template_name] is absent or falsy; [Invalid JSON structure -
    missing conversation_flow.sections] when the name is there and
    [conversation_flow] or its [sections] is absent or falsy; and
    [Duplicate question IDs found: ] followed by the duplicated
    identifiers joined with [", "]. *)
Theorem processIntakeJSON_failures JSON_parse now jsonContent forceNewVersion ss :
  (∀ e, JSON_parse jsonContent = Throw e →
        processIntakeJSON JSON_parse now jsonContent forceNewVersion ss
        = (ProcessFailure (error_message e), ss))
  ∧ (∀ intakeData,
       JSON_parse jsonContent = Normal intakeData →
       nullish intakeData = false →
       truthy (prop intakeData "template_name") = false →
       processIntakeJSON JSON_parse now jsonContent forceNewVersion ss
       = (ProcessFailure "Missing template_name in JSON", ss))
  ∧ (∀ intakeData,
       JSON_parse jsonContent = Normal intakeData →
       truthy (prop intakeData "template_name") = true →
       truthy (prop intakeData "conversation_flow")
       && truthy (prop (prop intakeData "conversation_flow") "sections") = false →
       processIntakeJSON JSON_parse now jsonContent forceNewVersion ss
       = (ProcessFailure "Invalid JSON structure - missing conversation_flow.sections",
          ss))
  ∧ (∀ intakeData parsedData name joined,
       JSON_parse jsonContent = Normal intakeData →
       structural_check intakeData = true →
       getVersionedSheetName ss (prop intakeData "template_name") forceNewVersion
       = Normal name →
       flattenIntakeJSON intakeData = Normal parsedData →
       checkDuplicateIds (rows parsedData) ≠ [] →
       array_join ", " (checkDuplicateIds (rows parsedData)) = Normal joined →
       processIntakeJSON JSON_parse now jsonContent forceNewVersion ss
       = (ProcessFailure ("Duplicate question IDs found: " +:+ joined), ss)).
Proof.
  unfold processIntakeJSON, processIntakeJSON_try. repeat split.
  - intros e Hparse. by erewrite host_bind_throw by (unfold lift; by rewrite Hparse).
  - intros intakeData Hparse Hdata Ht.
    erewrite host_bind_step by (unfold lift; by rewrite Hparse).
    erewrite host_bind_step by (unfold lift; by rewrite get_prop_Normal).
    rewrite Ht. by erewrite host_bind_throw by reflexivity.
  - intros intakeData Hparse Ht Hflow.
    assert (nullish intakeData = false) as Hdata by (by destruct intakeData).
    erewrite host_bind_step by (unfold lift; by rewrite Hparse).
    erewrite host_bind_step by (unfold lift; by rewrite get_prop_Normal).
    rewrite Ht. erewrite host_bind_step by reflexivity.
    rewrite <- negb_andb, Hflow. by erewrite host_bind_throw by reflexivity.
  - intros intakeData parsedData name joined Hparse Hcheck Hname Hflatten Hdup Hjoined.
    unfold structural_check in Hcheck.
    apply andb_prop in Hcheck as [[Ht Hflow]%andb_prop Hsections].
    assert (nullish intakeData = false) as Hdata by (by destruct intakeData).
    erewrite host_bind_step by (unfold lift; by rewrite Hparse).
    erewrite host_bind_step by (unfold lift; by rewrite get_prop_Normal).
    rewrite Ht, Hflow, Hsections. cbn [negb orb].
    erewrite host_bind_step by reflexivity.
    erewrite host_bind_step by reflexivity.
    erewrite host_bind_step by (by rewrite Hname).
    erewrite host_bind_step by (unfold lift; by rewrite Hflatten).
    rewrite bool_decide_eq_true_2
      by (destruct (checkDuplicateIds (rows parsedData)); [done | simpl; lia]).
    erewrite (host_bind_throw (_ ≫= _))
      by (erewrite host_bind_step by (unfold lift; by rewrite Hjoined); reflexivity).
    done.
Qed.

Lemma processIntakeJSON_failures_witness :
  processIntakeJSON (λ _, Normal duplicate_document) "2025-01-01" "" false
    {| sheets := [] |}
  = (ProcessFailure "Duplicate question IDs found: q1", {| sheets := [] |}).
Proof.
  apply (proj2 (proj2 (proj2 (processIntakeJSON_failures
           (λ _, Normal duplicate_document) "2025-01-01" "" false {| sheets := [] |})))
           duplicate_document duplicate_parsed "Intake_Contact" "q1");
    try reflexivity.
  discriminate.
Defined.

(** ** The preview and the list of schemas *)

(** X13 (previewJSON): whenever the text parses and the flattening
    completes, the preview succeeds, with or without a [template_name]
    (it reports the one it finds, be it [undefined]): its question count
    is the number of flat rows, so every expanded field counts as a
    question, its section count is the number of sections, and it reports
    the duplicates that [checkDuplicateIds] finds. *)
Theorem previewJSON_counts JSON_parse jsonContent intakeData parsedData :
  JSON_parse jsonContent = Normal intakeData →
  flattenIntakeJSON intakeData = Normal parsedData →
  previewJSON JSON_parse jsonContent
  = PreviewSuccess (prop intakeData "template_name")
      (JNum (Z.of_nat (expected_rows intakeData)))
      (JNum (Z.of_nat (length (sections_of intakeData))))
      (bool_decide (0 < length (checkDuplicateIds (rows parsedData))))
      (checkDuplicateIds (rows parsedData)).
Proof.
  intros Hparse Hflatten. unfold previewJSON. rewrite Hparse. simpl.
  rewrite Hflatten. simpl.
  pose proof (flattenIntakeJSON_shape _ _ Hflatten) as [-> _].
  apply flattenIntakeJSON_sections in Hflatten as (r & rowss & -> & _).
  done.
Qed.

Lemma previewJSON_counts_witness :
  previewJSON (λ _, Normal duplicate_document) ""
  = PreviewSuccess (prop duplicate_document "template_name")
      (JNum (Z.of_nat (expected_rows duplicate_document)))
      (JNum (Z.of_nat (length (sections_of duplicate_document))))
      (bool_decide (0 < length (checkDuplicateIds (rows duplicate_parsed))))
      (checkDuplicateIds (rows duplicate_parsed)).
Proof.
  apply (previewJSON_counts (λ _, Normal duplicate_document) "" duplicate_document
           duplicate_parsed); reflexivity.
Defined.

Lemma schema_names_nil ss :
  schema_names ss = []
  ↔ Forall (λ sh, String.prefix "Intake_" (sheet_name sh) = false) (sheets ss).
Proof.
  unfold schema_names. induction (sheets ss) as [|sh l IH]; csimpl.
  - split; [constructor | done].
  - rewrite filter_cons. destruct (String.prefix "Intake_" (sheet_name sh)) eqn:Hsh.
    + rewrite decide_True by done. split; [done|]. intros H. inversion H. congruence.
    + rewrite decide_False by done. rewrite IH.
      split; [by constructor | intros H; by inversion H].
Qed.

(** X14 (listSchemas): the alert says [No schema sheets found] exactly
    when no sheet name starts with [Intake_]; and a sheet that bears a
    name given by [getVersionedSheetName] is always among the schemas
    listed. *)
Theorem listSchemas_lists :
  (∀ ss, listSchemas ss = "No schema sheets found"
         ↔ Forall (λ sh, String.prefix "Intake_" (sheet_name sh) = false) (sheets ss))
  ∧ (∀ ss templateName forceNew name ss',
       getVersionedSheetName ss templateName forceNew = Normal name →
       is_Some (getSheetByName ss' name) →
       name ∈ schema_names ss' ∧ listSchemas ss' ≠ "No schema sheets found").
Proof.
  assert (∀ ss, listSchemas ss = "No schema sheets found" ↔ schema_names ss = [])
    as Hnone.
  { intros ss. unfold listSchemas.
    destruct (schema_names ss) as [|name names]; [done|].
    rewrite bool_decide_eq_false_2 by done. split; done. }
  split.
  - intros ss. by rewrite Hnone, schema_names_nil.
  - intros ss templateName forceNew name ss' Hname Hsheet.
    apply getVersionedSheetName_fresh_parts in Hname as [_ Hprefix].
    assert (name ∈ schema_names ss') as Hin.
    { unfold schema_names. apply list_elem_of_filter. split; [done|].
      by apply getSheetByName_Some. }
    split; [done|]. rewrite Hnone. intros Hnil. rewrite Hnil in Hin.
    by apply elem_of_nil in Hin.
Qed.

Lemma listSchemas_lists_witness :
  "Intake_X_v4" ∈ schema_names {| sheets := [ mkSheet "Intake_X_v4" [] [] ] |}
  ∧ listSchemas {| sheets := [ mkSheet "Intake_X_v4" [] [] ] |}
    ≠ "No schema sheets found".
Proof.
  apply (proj2 listSchemas_lists spreadsheet_X (JStr "X") false "Intake_X_v4"
           {| sheets := [ mkSheet "Intake_X_v4" [] [] ] |}).
  - reflexivity.
  - by eexists.
Defined.

(** ** The cells of the rows *)

Lemma standard_row_cells question section validation mapsTo examples options :
  let row := standard_row question section validation mapsTo examples options in
  row_of_section section row ∧ formatted_cells row.
Proof. repeat split; by eexists. Qed.

Lemma parent_row_cells question section parent :
  processStandardQuestion question section = Normal parent →
  length parent = 12 ∧ row_of_section section parent ∧ formatted_cells parent.
Proof.
  intros (_ & _ & validation & mapsTo & examples & options
          & _ & _ & _ & _ & ->)%processStandardQuestion_Normal.
  split; [done|]. apply standard_row_cells.
Qed.

Lemma object_field_row_cells question section entry row :
  object_field_row question section entry = Normal row →
  row_of_section section row ∧ formatted_cells row.
Proof.
  destruct entry as [fieldName fieldConfig]. unfold object_field_row. intros H.
  apply bind_Normal in H as (? & _ & H). apply bind_Normal in H as (? & _ & H).
  apply bind_Normal in H as (? & _ & H). apply bind_Normal in H as (? & _ & H).
  apply bind_Normal in H as (? & _ & [= <-]). repeat split; by eexists.
Qed.

Lemma social_link_row_cells question section entry row :
  social_link_row question section entry = Normal row →
  row_of_section section row ∧ formatted_cells row.
Proof.
  destruct entry as [platform config]. unfold social_link_row. intros H.
  apply bind_Normal in H as (? & _ & H). apply bind_Normal in H as (? & _ & H).
  apply bind_Normal in H as (? & _ & H).
  apply bind_Normal in H as (? & _ & [= <-]). repeat split; by eexists.
Qed.

Lemma set_validation_cells section (parent : Row) text :
  length parent = 12 → row_of_section section parent → formatted_cells parent →
  row_of_section section (<[col_validation := JStr text]> parent)
  ∧ formatted_cells (<[col_validation := JStr text]> parent).
Proof.
  unfold row_of_section, formatted_cells, Row in *.
  intros Hlen [Hid Hname] (_ & Hm & He & Ho). split; [split|repeat split].
  - by rewrite list_lookup_insert_ne.
  - by rewrite list_lookup_insert_ne.
  - exists text. apply list_lookup_insert_eq. rewrite Hlen. unfold col_validation. lia.
  - by rewrite list_lookup_insert_ne.
  - by rewrite list_lookup_insert_ne.
  - by rewrite list_lookup_insert_ne.
Qed.

Lemma traverse_cells {A B} (f : A → Completion B) (P : B → Prop) (xs : list A)
    (ys : list B) :
  (∀ x y, f x = Normal y → P y) →
  traverse f xs = Normal ys → Forall P ys.
Proof.
  intros Hf H. apply traverse_Normal in H.
  induction H as [|x y xs ys Hx _ IH]; constructor; eauto.
Qed.

Lemma question_rows_cells section question rows :
  question_rows section question = Normal rows →
  Forall (λ row, row_of_section section row ∧ formatted_cells row) rows.
Proof.
  unfold question_rows. intros H.
  apply bind_Normal in H as (type & Htype & H).
  pose proof (get_prop_returns _ _ _ Htype) as Hq.
  rewrite get_prop_Normal in Htype by done. injection Htype as <-.
  destruct (isComplexType (prop question "type")) eqn:Hcomplex.
  - apply isComplexType_true in Hcomplex as [Htype|[Htype|[Htype|Htype]]].
    + rewrite processComplexType_object in H by done.
      apply bind_Normal in H as (parent & Hparent & H).
      apply bind_Normal in H as (children & Hchildren & [= <-]).
      destruct (parent_row_cells _ _ _ Hparent) as (_ & Hcells).
      constructor; [done|].
      by eapply traverse_cells; [apply object_field_row_cells|].
    + rewrite processComplexType_social in H by done.
      apply bind_Normal in H as (parent & Hparent & H).
      apply bind_Normal in H as (children & Hchildren & [= <-]).
      destruct (parent_row_cells _ _ _ Hparent) as (_ & Hcells).
      constructor; [done|].
      by eapply traverse_cells; [apply social_link_row_cells|].
    + unfold processComplexType in H. rewrite Htype in H.
      apply bind_Normal in H as (parent & Hparent & H).
      destruct (parent_row_cells _ _ _ Hparent) as (Hlen & Hs & Hf).
      simpl in H.
      apply bind_Normal in H as (rows' & H & [= <-]).
      apply bind_Normal in H as (max_items & _ & H).
      apply bind_Normal in H as (current & _ & [= <-]).
      simpl. constructor; [|done]. by apply set_validation_cells.
    + unfold processComplexType in H. rewrite Htype in H.
      apply bind_Normal in H as (parent & Hparent & H).
      destruct (parent_row_cells _ _ _ Hparent) as (Hlen & Hs & Hf).
      simpl in H.
      apply bind_Normal in H as (rows' & H & [= <-]).
      apply bind_Normal in H as (types & _ & H).
      apply bind_Normal in H as (size & _ & [= <-]).
      simpl. constructor; [|done]. by apply set_validation_cells.
  - apply bind_Normal in H as (row & Hrow & [= <-]).
    destruct (parent_row_cells _ _ _ Hrow) as (_ & Hcells). by constructor.
Qed.

Lemma section_rows_cells section rows :
  section_rows section = Normal rows →
  Forall (λ row, row_of_section section row ∧ formatted_cells row) rows.
Proof.
  unfold section_rows. intros H.
  apply bind_Normal in H as (questions & _ & H).
  apply bind_Normal in H as (items & _ & H).
  apply bind_Normal in H as (rowss & Hrowss & [= <-]).
  apply Forall_concat. eapply traverse_cells; [|exact Hrowss].
  intros question rows'. apply question_rows_cells.
Qed.

(** X15 (flattenIntakeJSON): every row of a completed flattening carries
    in its first two cells the [section_id] and the [section_name] of a
    section of the document (the empty string for a falsy one), and holds
    strings in its validation, maps_to, examples and options cells. *)
Theorem flattenIntakeJSON_cells intakeData parsedData :
  flattenIntakeJSON intakeData = Normal parsedData →
  Forall (λ row, formatted_cells row
                 ∧ ∃ section, section ∈ sections_of intakeData
                              ∧ row_of_section section row)
    (rows parsedData).
Proof.
  intros (r & rowss & _ & Hrowss & -> & _)%flattenIntakeJSON_sections.
  apply traverse_Normal in Hrowss. apply Forall_concat.
  induction Hrowss as [|section rows' sections rowss Hsection _ IH];
    constructor.
  - apply section_rows_cells in Hsection.
    eapply Forall_impl; [exact Hsection|].
    intros row [Hs Hf]. split; [done|]. exists section. split; [|done].
    apply list_elem_of_here.
  - eapply Forall_impl; [exact IH|].
    intros rows'' Hrows. eapply Forall_impl; [exact Hrows|].
    intros row (Hf & section' & Hin & Hs). split; [done|].
    exists section'. split; [|done]. by apply list_elem_of_further.
Qed.

Lemma flattenIntakeJSON_cells_witness :
  Forall (λ row, formatted_cells row
                 ∧ ∃ section, section ∈ sections_of scenario_document
                              ∧ row_of_section section row)
    (rows scenario_parsed).
Proof. apply (flattenIntakeJSON_cells scenario_document). reflexivity. Defined.

(** X16 (processIntakeJSON): importing the same valid document twice
    reports the failure twice and leaves two sheets more than before,
    under two different names: each attempt adds a locked sheet. *)
Theorem processIntakeJSON_twice JSON_parse now now' jsonContent forceNewVersion ss
    intakeData parsedData template version :
  JSON_parse jsonContent = Normal intakeData →
  structural_check intakeData = true →
  flattenIntakeJSON intakeData = Normal parsedData →
  checkDuplicateIds (rows parsedData) = [] →
  to_string (prop intakeData "template_name") = Normal template →
  to_string (js_or (prop intakeData "template_version") (JStr "1.0")) = Normal version →
  let first := processIntakeJSON JSON_parse now jsonContent forceNewVersion ss in
  let second := processIntakeJSON JSON_parse now' jsonContent forceNewVersion first.2 in
  first.1 = ProcessFailure "rows is not defined"
  ∧ second.1 = ProcessFailure "rows is not defined"
  ∧ ∃ sheet sheet',
      sheets second.2 = sheets ss ++ [sheet; sheet']
      ∧ sheet_name sheet ≠ sheet_name sheet'
      ∧ sheet_protections sheet = lock_protections
      ∧ sheet_protections sheet' = lock_protections.
Proof.
  intros Hparse Hcheck Hflatten Hduplicates Htemplate Hversion first second.
  destruct (processIntakeJSON_valid JSON_parse now jsonContent forceNewVersion ss
              _ _ _ _ Hparse Hcheck Hflatten Hduplicates Htemplate Hversion)
    as (name & _ & _ & Hfirst).
  subst second first. rewrite Hfirst. cbn [fst snd].
  destruct (processIntakeJSON_valid JSON_parse now' jsonContent forceNewVersion
              {| sheets := sheets ss
                           ++ [ imported_sheet name template version now parsedData ] |}
              _ _ _ _ Hparse Hcheck Hflatten Hduplicates Htemplate Hversion)
    as (name' & _ & Hfree & Hsecond).
  rewrite Hsecond. cbn [fst snd sheets].
  split; [done|]. split; [done|].
  eexists _, _. split; [by rewrite <- app_assoc|]. split; [|done].
  unfold imported_sheet. cbn [sheet_name]. intros <-.
  apply getSheetByName_None in Hfree. unfold imported_sheet in Hfree. cbn [sheets] in Hfree.
  apply Forall_app in Hfree as [_ Hfree]. by inversion Hfree.
Qed.

Lemma processIntakeJSON_twice_witness :
  let first := processIntakeJSON (λ _, Normal scenario_document) "2025-01-01" ""
                 false {| sheets := [] |} in
  let second := processIntakeJSON (λ _, Normal scenario_document) "2025-01-02" ""
                  false first.2 in
  first.1 = ProcessFailure "rows is not defined"
  ∧ second.1 = ProcessFailure "rows is not defined"
  ∧ ∃ sheet sheet',
      sheets second.2 = sheets {| sheets := [] |} ++ [sheet; sheet']
      ∧ sheet_name sheet ≠ sheet_name sheet'
      ∧ sheet_protections sheet = lock_protections
      ∧ sheet_protections sheet' = lock_protections.
Proof.
  apply (processIntakeJSON_twice (λ _, Normal scenario_document) "2025-01-01"
           "2025-01-02" "" false {| sheets := [] |} scenario_document scenario_parsed
           "Contact" "1.0"); reflexivity.
Defined.

(** ** Unlocking *)

Lemma unlockSchema_last name (l : list Sheet) grid protections :
  Forall (λ sh, sheet_name sh ≠ name) l →
  unlockSchema name {| sheets := l ++ [mkSheet name grid protections] |}
  = (Normal (), {| sheets := l ++ [ mkSheet name (clear_row 2 12 grid) [] ] |}).
Proof.
  intros Hl. unfold unlockSchema.
  erewrite host_bind_step by reflexivity. rewrite update_sheet_last by done.
  unfold modify. by rewrite update_sheet_last.
Qed.

(** X17 (lockSchema, unlockSchema): on the sheet that [buildIntakeSheet]
    leaves under a new name, for data rows as wide as the headers,
    [lockSchema] adds its five protections and writes the lock notice in
    row 2, and [unlockSchema] afterwards removes every protection and the
    notice: row 2 holds twelve empty cells, and every other row is, after
    the one and after the other, as it was in the built sheet. *)
Theorem unlockSchema_undoes_lockSchema sheetName parsedData ss :
  getSheetByName ss sheetName = None →
  Forall (λ row, length row = length headers) (rows parsedData) →
  let built := (buildIntakeSheet sheetName parsedData ss).2 in
  let locked := (lockSchema sheetName built).2 in
  let unlocked := (unlockSchema sheetName locked).2 in
  ∃ sheet sheet' sheet'',
    getSheetByName built sheetName = Some sheet
    ∧ getSheetByName locked sheetName = Some sheet'
    ∧ getSheetByName unlocked sheetName = Some sheet''
    ∧ sheet_protections sheet = []
    ∧ sheet_protections sheet' = lock_protections
    ∧ sheet_grid sheet' !! 1 = Some notice_row
    ∧ sheet_protections sheet'' = []
    ∧ sheet_grid sheet'' !! 1 = Some (replicate 12 (JStr ""))
    ∧ ∀ i, i ≠ 1 →
           sheet_grid sheet' !! i = sheet_grid sheet !! i
           ∧ sheet_grid sheet'' !! i = sheet_grid sheet !! i.
Proof.
  intros Hfree Hwidth built locked unlocked. subst unlocked locked built.
  rewrite buildIntakeSheet_result by done. cbn [snd].
  apply getSheetByName_None in Hfree.
  unfold built_sheet.
  rewrite lockSchema_last by done. cbn [snd].
  rewrite unlockSchema_last by done. cbn [snd].
  eexists _, _, _.
  split; [by apply getSheetByName_last|].
  split; [by apply getSheetByName_last|].
  split; [by apply getSheetByName_last|].
  cbn [sheet_protections sheet_grid].
  unfold write_notice, update_row, clear_row, notice_row. simpl.
  rewrite ?app_nil_r. simpl.
  do 5 (split; [done|]).
  intros [|[|i]] Hi; done.
Qed.

Lemma unlockSchema_undoes_lockSchema_witness :
  let built := (buildIntakeSheet "Intake_X_v4" scenario_parsed spreadsheet_X).2 in
  let locked := (lockSchema "Intake_X_v4" built).2 in
  let unlocked := (unlockSchema "Intake_X_v4" locked).2 in
  ∃ sheet sheet' sheet'',
    getSheetByName built "Intake_X_v4" = Some sheet
    ∧ getSheetByName locked "Intake_X_v4" = Some sheet'
    ∧ getSheetByName unlocked "Intake_X_v4" = Some sheet''
    ∧ sheet_protections sheet = []
    ∧ sheet_protections sheet' = lock_protections
    ∧ sheet_grid sheet' !! 1 = Some notice_row
    ∧ sheet_protections sheet'' = []
    ∧ sheet_grid sheet'' !! 1 = Some (replicate 12 (JStr ""))
    ∧ ∀ i, i ≠ 1 →
           sheet_grid sheet' !! i = sheet_grid sheet !! i
           ∧ sheet_grid sheet'' !! i = sheet_grid sheet !! i.
Proof.
  apply (unlockSchema_undoes_lockSchema "Intake_X_v4" scenario_parsed spreadsheet_X).
  - reflexivity.
  - repeat constructor.
Defined.

(** X18 (unlockSchema after processIntakeJSON): on the sheet that an
    import leaves, [unlockSchema] removes every protection but not the
    lock notice: the notice stands in row 4, below the two rows that
    [addMetadata] inserted, with the headers in row 5, and the row that
    [unlockSchema] clears is row 2. *)
Theorem unlockSchema_after_import JSON_parse now jsonContent forceNewVersion ss
    intakeData parsedData template version :
  JSON_parse jsonContent = Normal intakeData →
  structural_check intakeData = true →
  flattenIntakeJSON intakeData = Normal parsedData →
  checkDuplicateIds (rows parsedData) = [] →
  to_string (prop intakeData "template_name") = Normal template →
  to_string (js_or (prop intakeData "template_version") (JStr "1.0")) = Normal version →
  let imported := (processIntakeJSON JSON_parse now jsonContent forceNewVersion ss).2 in
  ∃ name sheet,
    getVersionedSheetName ss (prop intakeData "template_name") forceNewVersion
    = Normal name
    ∧ (unlockSchema name imported).1 = Normal ()
    ∧ getSheetByName (unlockSchema name imported).2 name = Some sheet
    ∧ sheet_protections sheet = []
    ∧ sheet_grid sheet !! 1 = Some (replicate 12 (JStr ""))
    ∧ sheet_grid sheet !! 3 = Some notice_row
    ∧ sheet_grid sheet !! 4 = Some (JStr <$> headers).
Proof.
  intros Hparse Hcheck Hflatten Hduplicates Htemplate Hversion imported.
  destruct (processIntakeJSON_valid JSON_parse now jsonContent forceNewVersion ss
              _ _ _ _ Hparse Hcheck Hflatten Hduplicates Htemplate Hversion)
    as (name & Hname & Hfree & Himported).
  subst imported. rewrite Himported. cbn [snd].
  apply getSheetByName_None in Hfree. unfold imported_sheet.
  eexists name, _. rewrite unlockSchema_last by done. cbn [fst snd].
  split; [done|]. split; [done|].
  split; [by apply getSheetByName_last|].
  cbn [sheet_protections sheet_grid]. unfold clear_row. simpl. done.
Qed.

Lemma unlockSchema_after_import_witness :
  let imported := (processIntakeJSON (λ _, Normal scenario_document) "2025-01-01" ""
                     false {| sheets := [] |}).2 in
  ∃ name sheet,
    getVersionedSheetName {| sheets := [] |} (prop scenario_document "template_name")
      false = Normal name
    ∧ (unlockSchema name imported).1 = Normal ()
    ∧ getSheetByName (unlockSchema name imported).2 name = Some sheet
    ∧ sheet_protections sheet = []
    ∧ sheet_grid sheet !! 1 = Some (replicate 12 (JStr ""))
    ∧ sheet_grid sheet !! 3 = Some notice_row
    ∧ sheet_grid sheet !! 4 = Some (JStr <$> headers).
Proof.
  apply (unlockSchema_after_import (λ _, Normal scenario_document) "2025-01-01" ""
           false {| sheets := [] |} scenario_document scenario_parsed "Contact" "1.0");
    reflexivity.
Defined.
